(** * logger: a facade over log/syslog and the terminal

    Shallow embedding of [logger.go].  The package keeps four globals
    ([s], [debug], [verbose], [color]) and talks to four outside
    packages: [log/syslog], [os], [go-isatty] and [time], plus
    [fmt.Printf] on standard output.  The globals are a record that is
    threaded through every function; the outside packages are a
    [Platform] of oracles over an abstract environment; every
    interaction is also appended to a trace, so that "what was called,
    in which order" can be stated. *)

From Stdlib Require Import String Ascii List ZArith Bool Lia DecimalString.
Import ListNotations.
Local Open Scope string_scope.

(** ** Go values *)

(** A Go [error] interface value: [nil] is [None].  [errors_New] is the
    value built by [errors.New]; [foreign_error] stands for the errors of
    any other dynamic type (the ones the transport of log/syslog makes). *)
Inductive error_value : Type :=
| errors_New (text : string)
| foreign_error (text : string).

Definition error : Type := option error_value.

Definition nil_error : error := None.

(** [string([]byte{...})]: the string with exactly these bytes. *)
Definition string_of_bytes (bs : list nat) : string :=
  string_of_list_ascii (map ascii_of_nat bs).

(** The line feed written as [\n] in a Go string literal. *)
Definition LF : string := String "010"%char EmptyString.

(** [fmt.Sprintf] restricted to the verb the package uses, [%s] applied
    to string operands; any other byte of the format is copied. *)
Fixpoint fmt_Sprintf (format : string) (args : list string) : string :=
  match format with
  | EmptyString => EmptyString
  | String c rest =>
      if Ascii.eqb c "%"%char then
        match rest with
        | EmptyString => "%!(NOVERB)"
        | String d rest' =>
            if Ascii.eqb d "s"%char then
              match args with
              | a :: args' => a ++ fmt_Sprintf rest' args'
              | [] => "%!s(MISSING)" ++ fmt_Sprintf rest' []
              end
            else String c (String d (fmt_Sprintf rest' args))
        end
      else String c (fmt_Sprintf rest args)
  end.

(** ** Constants of logger.go *)

Definition L_EMERGENCY : Z := 0.
Definition L_ALERT     : Z := 1.
Definition L_CRITICAL  : Z := 2.
Definition L_ERROR     : Z := 3.
Definition L_WARNING   : Z := 4.
Definition L_NOTICE    : Z := 5.
Definition L_INFO      : Z := 6.
Definition L_DEBUG     : Z := 7.

Definition M_EMERGENCY : string := "EMERGENCY".
Definition M_ALERT     : string := "ALERT    ".
Definition M_CRITICAL  : string := "CRITICAL ".
Definition M_ERROR     : string := "ERROR    ".
Definition M_WARNING   : string := "WARNING  ".
Definition M_NOTICE    : string := "NOTICE   ".
Definition M_INFO      : string := "INFO     ".
Definition M_DEBUG     : string := "DEBUG    ".

Definition C_BLUE    : string := string_of_bytes [27; 91; 57; 55; 59; 52; 52; 109].
Definition C_CYAN    : string := string_of_bytes [27; 91; 57; 55; 59; 52; 54; 109].
Definition C_GREEN   : string := string_of_bytes [27; 91; 57; 55; 59; 52; 50; 109].
Definition C_WHITE   : string := string_of_bytes [27; 91; 57; 48; 59; 52; 55; 109].
Definition C_YELLOW  : string := string_of_bytes [27; 91; 57; 55; 59; 52; 51; 109].
Definition C_MAGENTA : string := string_of_bytes [27; 91; 57; 55; 59; 52; 53; 109].
Definition C_RED     : string := string_of_bytes [27; 91; 57; 55; 59; 52; 49; 109].
Definition C_RESET   : string := string_of_bytes [27; 91; 48; 109].

(** ** Constants of the packages logger.go imports *)

(** log/syslog: the severity is the low three bits of a priority, the
    facility the bits above them. *)
Definition LOG_WARNING : Z := 4.
Definition LOG_DAEMON  : Z := Z.shiftl 3 3.

(** time.RFC3339, the layout handed to [Time.Format]. *)
Definition time_RFC3339 : string := "2006-01-02T15:04:05Z07:00".

(** The eight severity methods of [*syslog.Writer]. *)
Inductive method : Type :=
| mEmerg | mAlert | mCrit | mErr | mWarning | mNotice | mInfo | mDebug.

(** ** The outside world *)

(** What the imported packages do is not this package's code: it is a
    parameter.  [Env] is the state of everything outside the process
    (the syslog daemon and its socket, the clock, the terminal, the
    process environment).  Calls into log/syslog and the clock may change
    it, the terminal and environment queries only read it. *)
Record Platform : Type := {
  Env    : Type;
  Writer : Type;
  Time   : Type;
  syslog_New   : Z -> string -> Env -> (option Writer * error) * Env;
  Writer_log   : method -> Writer -> string -> Env -> error * Env;
  Writer_Close : Writer -> Env -> error * Env;
  os_Getenv    : string -> Env -> string;
  os_Stdout_Fd : Env -> Z;
  isatty_IsTerminal       : Z -> Env -> bool;
  isatty_IsCygwinTerminal : Z -> Env -> bool;
  time_Now     : Env -> Time * Env;
  Time_Format  : Time -> string -> string
}.

(** How a call ends: it returns, or the run time panics on a nil
    pointer dereference. *)
Inductive panic : Type := NilDereference.

Inductive outcome (A : Type) : Type :=
| Returned (a : A)
| Panicked (p : panic).
Arguments Returned {A} a.
Arguments Panicked {A} p.

Section Logger.

Context {P : Platform}.

(** One entry per interaction with the outside, oldest first. *)
Inductive Event : Type :=
| EvSyslogNew (priority : Z) (tag : string)
| EvSyslogLog (m : method) (w : Writer P) (message : string)
| EvSyslogClose (w : Writer P)
| EvGetenv (key : string)
| EvIsTerminal (fd : Z)
| EvIsCygwinTerminal (fd : Z)
| EvNow
| EvStdout (text : string).

(** The package-level variables, the environment and the trace.
    [s] is a [*syslog.Writer]: [None] is the nil pointer. *)
Record World : Type := mkWorld {
  s       : option (Writer P);
  debug   : bool;
  verbose : bool;
  color   : bool;
  env     : Env P;
  trace   : list Event
}.

Definition set_s (x : option (Writer P)) (w : World) : World :=
  mkWorld x (debug w) (verbose w) (color w) (env w) (trace w).
Definition set_debug (b : bool) (w : World) : World :=
  mkWorld (s w) b (verbose w) (color w) (env w) (trace w).
Definition set_verbose (b : bool) (w : World) : World :=
  mkWorld (s w) (debug w) b (color w) (env w) (trace w).
Definition set_color (b : bool) (w : World) : World :=
  mkWorld (s w) (debug w) (verbose w) b (env w) (trace w).
Definition set_env (e : Env P) (w : World) : World :=
  mkWorld (s w) (debug w) (verbose w) (color w) e (trace w).
Definition record (ev : Event) (w : World) : World :=
  mkWorld (s w) (debug w) (verbose w) (color w) (env w) (trace w ++ [ev]).

(** ** The monad: the package state, and the panic that ends a call *)

Definition M (A : Type) : Type := World -> outcome A * World.

Definition ret {A} (a : A) : M A := fun w => (Returned a, w).

Definition bind {A B} (m : M A) (k : A -> M B) : M B :=
  fun w =>
    match m w with
    | (Returned a, w') => k a w'
    | (Panicked p, w') => (Panicked p, w')
    end.

Definition gets {A} (f : World -> A) : M A := fun w => (Returned (f w), w).
Definition modify (f : World -> World) : M unit := fun w => (Returned tt, f w).
Definition throw {A} (p : panic) : M A := fun w => (Panicked p, w).

Notation "x <- m ;; k" := (bind m (fun x => k))
  (at level 61, m at next level, right associativity).
Notation "m ;; k" := (bind m (fun _ => k))
  (at level 61, right associativity).

(** ** Calls into the imported packages *)

(** [syslog.New(priority, tag)] *)
Definition call_syslog_New (priority : Z) (tag : string)
  : M (option (Writer P) * error) :=
  fun w =>
    let '(r, e) := syslog_New P priority tag (env w) in
    (Returned r, record (EvSyslogNew priority tag) (set_env e w)).

(** [recv.Emerg(message)], [recv.Alert(message)], ...: every one of them
    reads a field of the receiver first, so a nil receiver panics before
    anything reaches the daemon. *)
Definition call_Writer_log (m : method) (recv : option (Writer P))
    (message : string) : M error :=
  match recv with
  | None => throw NilDereference
  | Some h =>
      fun w =>
        let '(r, e) := Writer_log P m h message (env w) in
        (Returned r, record (EvSyslogLog m h message) (set_env e w))
  end.

(** [recv.Close()] *)
Definition call_Writer_Close (recv : option (Writer P)) : M error :=
  match recv with
  | None => throw NilDereference
  | Some h =>
      fun w =>
        let '(r, e) := Writer_Close P h (env w) in
        (Returned r, record (EvSyslogClose h) (set_env e w))
  end.

Definition call_os_Getenv (key : string) : M string :=
  fun w => (Returned (os_Getenv P key (env w)), record (EvGetenv key) w).

Definition call_os_Stdout_Fd : M Z := gets (fun w => os_Stdout_Fd P (env w)).

Definition call_isatty_IsTerminal (fd : Z) : M bool :=
  fun w => (Returned (isatty_IsTerminal P fd (env w)), record (EvIsTerminal fd) w).

Definition call_isatty_IsCygwinTerminal (fd : Z) : M bool :=
  fun w => (Returned (isatty_IsCygwinTerminal P fd (env w)),
            record (EvIsCygwinTerminal fd) w).

Definition call_time_Now : M (Time P) :=
  fun w =>
    let '(t, e) := time_Now P (env w) in
    (Returned t, record EvNow (set_env e w)).

(** [fmt.Printf(format, args...)]: the formatted text goes to standard
    output; the count and error it returns are dropped by every caller. *)
Definition fmt_Printf (format : string) (args : list string) : M unit :=
  modify (record (EvStdout (fmt_Sprintf format args))).

(** Go's [a || b] and [a && b] evaluate [b] only when [a] does not decide. *)
Definition orM (a b : M bool) : M bool :=
  x <- a ;; if x then ret true else b.
Definition andM (a b : M bool) : M bool :=
  x <- a ;; if x then b else ret false.

(** ** logger.go *)

(** Lines 92 to 96 of [Open]: the colour auto-detection. *)
Definition Open_detect_color : M error :=
  c <- orM (t <- call_os_Getenv "TERM" ;; ret (String.eqb t "dumb"))
           (andM (fd <- call_os_Stdout_Fd ;;
                  b <- call_isatty_IsTerminal fd ;; ret (negb b))
                 (fd <- call_os_Stdout_Fd ;;
                  b <- call_isatty_IsCygwinTerminal fd ;; ret (negb b))) ;;
  (if c then modify (set_color false) else ret tt) ;;
  ret nil_error.

Definition Open (tag : string) : M error :=
  if negb (String.eqb tag "") then
    r <- call_syslog_New (Z.lor LOG_WARNING LOG_DAEMON) tag ;;
    modify (set_s (fst r)) ;;
    match snd r with
    | Some e => ret (Some e)
    | None => Open_detect_color
    end
  else
    ret (Some (errors_New "logger: tag cannot be empty")).

Definition Close : M error :=
  h <- gets s ;;
  err <- call_Writer_Close h ;;
  ret err.

Definition PrintToScreen (level : Z) (message : string) : M unit :=
  let '(mColor, mHeader) :=
    if Z.eqb level L_EMERGENCY then (C_RED, M_EMERGENCY)
    else if Z.eqb level L_ALERT then (C_RED, M_ALERT)
    else if Z.eqb level L_CRITICAL then (C_YELLOW, M_CRITICAL)
    else if Z.eqb level L_ERROR then (C_YELLOW, M_ERROR)
    else if Z.eqb level L_WARNING then (C_MAGENTA, M_WARNING)
    else if Z.eqb level L_NOTICE then (C_CYAN, M_NOTICE)
    else if Z.eqb level L_INFO then (C_WHITE, M_INFO)
    else if Z.eqb level L_DEBUG then (C_GREEN, M_DEBUG)
    else ("", "") in
  let mReset := C_RESET in
  c <- gets color ;;
  let '(mColor, mReset) := if negb c then ("", "") else (mColor, mReset) in
  t <- call_time_Now ;;
  fmt_Printf ("%s - %s%s%s %s" ++ LF)
    [Time_Format P t time_RFC3339; mColor; mHeader; mReset; message].

Definition DisableColor : M unit := modify (set_color false).

Definition SetDebug (b : bool) : M unit := modify (set_debug b).

Definition SetVerbose (b : bool) : M unit := modify (set_verbose b).

Definition Emergency (message : string) : M error :=
  PrintToScreen L_EMERGENCY message ;;
  h <- gets s ;;
  err <- call_Writer_log mEmerg h message ;;
  ret err.

Definition Alert (message : string) : M error :=
  d <- gets debug ;;
  if Bool.eqb d true then
    PrintToScreen L_ALERT message ;; ret nil_error
  else
    h <- gets s ;; err <- call_Writer_log mAlert h message ;; ret err.

Definition Critical (message : string) : M error :=
  d <- gets debug ;;
  if Bool.eqb d true then
    PrintToScreen L_CRITICAL message ;; ret nil_error
  else
    h <- gets s ;; err <- call_Writer_log mCrit h message ;; ret err.

Definition Error (message : string) : M error :=
  d <- gets debug ;;
  if Bool.eqb d true then
    PrintToScreen L_ERROR message ;; ret nil_error
  else
    h <- gets s ;; err <- call_Writer_log mErr h message ;; ret err.

Definition Warning (message : string) : M error :=
  d <- gets debug ;;
  if Bool.eqb d true then
    PrintToScreen L_WARNING message ;; ret nil_error
  else
    h <- gets s ;; err <- call_Writer_log mWarning h message ;; ret err.

Definition Notice (message : string) : M error :=
  d <- gets debug ;;
  if Bool.eqb d true then
    PrintToScreen L_NOTICE message ;; ret nil_error
  else
    h <- gets s ;; err <- call_Writer_log mNotice h message ;; ret err.

Definition Info (message : string) : M error :=
  v <- gets verbose ;;
  if Bool.eqb v true then
    d <- gets debug ;;
    if Bool.eqb d true then
      PrintToScreen L_INFO message ;; ret nil_error
    else
      h <- gets s ;; err <- call_Writer_log mInfo h message ;; ret err
  else ret nil_error.

Definition Debug (message : string) : M error :=
  v <- gets verbose ;;
  if Bool.eqb v true then
    d <- gets debug ;;
    if Bool.eqb d true then
      PrintToScreen L_DEBUG message ;; ret nil_error
    else
      h <- gets s ;; err <- call_Writer_log mDebug h message ;; ret err
  else ret nil_error.

End Logger.

(** ** The contract's vocabulary *)

(** The eight severities, most urgent first. *)
Inductive Severity : Type :=
| SevEmergency | SevAlert | SevCritical | SevError
| SevWarning | SevNotice | SevInfo | SevDebug.

Definition ordinal (sev : Severity) : Z :=
  match sev with
  | SevEmergency => 0 | SevAlert => 1 | SevCritical => 2 | SevError => 3
  | SevWarning => 4 | SevNotice => 5 | SevInfo => 6 | SevDebug => 7
  end.

Definition label (sev : Severity) : string :=
  match sev with
  | SevEmergency => "EMERGENCY" | SevAlert => "ALERT"
  | SevCritical => "CRITICAL" | SevError => "ERROR"
  | SevWarning => "WARNING" | SevNotice => "NOTICE"
  | SevInfo => "INFO" | SevDebug => "DEBUG"
  end.

Fixpoint spaces (n : nat) : string :=
  match n with
  | O => EmptyString
  | S n' => String " "%char (spaces n')
  end.

(** [str] followed by as many blanks as it lacks to be [n] long. *)
Definition pad_right (n : nat) (str : string) : string :=
  str ++ spaces (n - String.length str).

Definition padded_label (sev : Severity) : string := pad_right 9 (label sev).

Inductive Color : Type :=
| red | yellow | magenta | cyan | white | green | blue.

(** The colour table of the contract. *)
Definition severity_color (sev : Severity) : Color :=
  match sev with
  | SevEmergency => red | SevAlert => red
  | SevCritical => yellow | SevError => yellow
  | SevWarning => magenta | SevNotice => cyan
  | SevInfo => white | SevDebug => green
  end.

(** The escape sequence the package keeps for each colour. *)
Definition escape (c : Color) : string :=
  match c with
  | red => C_RED | yellow => C_YELLOW | magenta => C_MAGENTA
  | cyan => C_CYAN | white => C_WHITE | green => C_GREEN | blue => C_BLUE
  end.

(** ANSI "select graphic rendition": ESC, an opening bracket, the
    foreground and background codes in decimal separated by a semicolon,
    and the letter m.  Background 40 + i paints the i-th ANSI colour. *)
Definition ESC : string := String (ascii_of_nat 27) EmptyString.

Definition decimal (n : nat) : string :=
  NilEmpty.string_of_uint (Nat.to_uint n).

Definition sgr (foreground background : nat) : string :=
  ESC ++ "[" ++ decimal foreground ++ ";" ++ decimal background ++ "m".

Definition ansi_index (c : Color) : nat :=
  match c with
  | red => 1 | green => 2 | yellow => 3 | blue => 4
  | magenta => 5 | cyan => 6 | white => 7
  end.

(** The text on the coloured background: bright white, and bright black
    on the white background. *)
Definition ansi_foreground (c : Color) : nat :=
  match c with
  | white => 90
  | _ => 97
  end.

(** The terminal line of the contract:
    [<timestamp> - <colorPrefix><padded label><colorReset> <message>]
    and a line feed. *)
Definition terminal_line (colorEnabled : bool) (timestamp : string)
    (sev : Severity) (message : string) : string :=
  let colorPrefix := if colorEnabled then escape (severity_color sev) else "" in
  let colorReset := if colorEnabled then C_RESET else "" in
  timestamp ++ " - " ++ colorPrefix ++ padded_label sev ++ colorReset
            ++ " " ++ message ++ LF.

(** The severity method of the system log that matches a severity. *)
Definition matching_method (sev : Severity) : method :=
  match sev with
  | SevEmergency => mEmerg | SevAlert => mAlert
  | SevCritical => mCrit | SevError => mErr
  | SevWarning => mWarning | SevNotice => mNotice
  | SevInfo => mInfo | SevDebug => mDebug
  end.

Section Contract.

Context {P : Platform}.

(** The public function of each severity. *)
Definition emit (sev : Severity) : string -> @M P error :=
  match sev with
  | SevEmergency => Emergency | SevAlert => Alert
  | SevCritical => Critical | SevError => Error
  | SevWarning => Warning | SevNotice => Notice
  | SevInfo => Info | SevDebug => Debug
  end.

(** What the clock answers when it is read in [w], laid out as RFC 3339,
    and the environment that read leaves. *)
Definition timestamp (w : @World P) : string :=
  Time_Format P (fst (time_Now P (env w))) time_RFC3339.

Definition env_after_clock (w : @World P) : Env P := snd (time_Now P (env w)).

(** The lines written to standard output, oldest first. *)
Fixpoint stdout_of (t : list (@Event P)) : list string :=
  match t with
  | [] => []
  | EvStdout text :: t' => text :: stdout_of t'
  | _ :: t' => stdout_of t'
  end.

Definition is_syslog (ev : @Event P) : bool :=
  match ev with
  | EvSyslogNew _ _ | EvSyslogLog _ _ _ | EvSyslogClose _ => true
  | _ => false
  end.

Definition is_terminal_query (ev : @Event P) : bool :=
  match ev with
  | EvGetenv _ | EvIsTerminal _ | EvIsCygwinTerminal _ => true
  | _ => false
  end.

(** The calls made on the system log, oldest first. *)
Definition syslog_of (t : list (@Event P)) : list (@Event P) := filter is_syslog t.

(** The condition of line 92, read in environment [e]. *)
Definition no_color_terminal (e : Env P) : bool :=
  String.eqb (os_Getenv P "TERM" e) "dumb"
  || (negb (isatty_IsTerminal P (os_Stdout_Fd P e) e)
      && negb (isatty_IsCygwinTerminal P (os_Stdout_Fd P e) e)).

(** A call of one exported function. *)
Inductive Call : Type :=
| CallOpen (tag : string)
| CallClose
| CallPrintToScreen (level : Z) (message : string)
| CallDisableColor
| CallSetDebug (b : bool)
| CallSetVerbose (b : bool)
| CallEmit (sev : Severity) (message : string).

Definition forget {A} (m : @M P A) : @M P unit :=
  fun w => match m w with
           | (Returned _, w') => (Returned tt, w')
           | (Panicked p, w') => (Panicked p, w')
           end.

Definition exec (c : Call) : @M P unit :=
  match c with
  | CallOpen tag => forget (Open tag)
  | CallClose => forget Close
  | CallPrintToScreen level message => PrintToScreen level message
  | CallDisableColor => DisableColor
  | CallSetDebug b => SetDebug b
  | CallSetVerbose b => SetVerbose b
  | CallEmit sev message => forget (emit sev message)
  end.

Definition panicked {A} (r : outcome A * @World P) : bool :=
  match fst r with
  | Panicked _ => true
  | Returned _ => false
  end.

(** Whether a call, started in [w], reaches a method of the handle [s]. *)
Definition dereferences (c : Call) (w : @World P) : bool :=
  match c with
  | CallClose => true
  | CallEmit SevEmergency _ => true
  | CallEmit (SevInfo | SevDebug) _ => verbose w && negb (debug w)
  | CallEmit _ _ => negb (debug w)
  | _ => false
  end.

(** The terminal queries line 92 makes in environment [e], in order:
    Go's [||] and [&&] stop at the first operand that decides. *)
Definition detection_queries (e : Env P) : list (@Event P) :=
  EvGetenv "TERM" ::
  (if String.eqb (os_Getenv P "TERM" e) "dumb" then []
   else
     EvIsTerminal (os_Stdout_Fd P e) ::
     (if isatty_IsTerminal P (os_Stdout_Fd P e) e then []
      else [EvIsCygwinTerminal (os_Stdout_Fd P e)])).

(** The world the colour auto-detection leaves. *)
Definition after_detection (w : @World P) : @World P :=
  mkWorld (s w) (debug w) (verbose w)
          (if no_color_terminal (env w) then false else color w)
          (env w) (trace w ++ detection_queries (env w)).

(** The world right after [syslog.New] answered and [s] was assigned. *)
Definition after_connect (tag : string) (w : @World P) : @World P :=
  let r := syslog_New P (Z.lor LOG_WARNING LOG_DAEMON) tag (env w) in
  mkWorld (fst (fst r)) (debug w) (verbose w) (color w) (snd r)
          (trace w ++ [EvSyslogNew (Z.lor LOG_WARNING LOG_DAEMON) tag]).

(** The error [syslog.New] answers in [w], nil when it connects. *)
Definition connect_error (tag : string) (w : @World P) : error :=
  snd (fst (syslog_New P (Z.lor LOG_WARNING LOG_DAEMON) tag (env w))).

(** An invariant of the package state that a computation keeps, however
    it ends. *)
Definition preserves {A} (I : @World P -> Prop) (m : @M P A) : Prop :=
  forall w, I w -> I (snd (m w)).

Definition color_off (w : @World P) : Prop := color w = false.

End Contract.

(** ** A platform to run the functions on

    The environment counts the calls made so far; the daemon accepts
    every connection but refuses every message whose text is "fail";
    the terminal is interactive unless listed otherwise. *)
Definition demo_platform (term : string) (tty : bool) (reachable : bool)
  : Platform := {|
  Env := nat;
  Writer := nat;
  Time := nat;
  syslog_New := fun _ _ e =>
    if reachable then ((Some (S e), None), S e)
    else ((None, Some (foreign_error "dial unixgram: no such file")), S e);
  Writer_log := fun _ _ msg e =>
    ((if String.eqb msg "fail" then Some (foreign_error "write: broken pipe")
      else None), S e);
  Writer_Close := fun _ e => (None, S e);
  os_Getenv := fun key _ => if String.eqb key "TERM" then term else "";
  os_Stdout_Fd := fun _ => 1%Z;
  isatty_IsTerminal := fun _ _ => tty;
  isatty_IsCygwinTerminal := fun _ _ => false;
  time_Now := fun e => (e, S e);
  Time_Format := fun _ _ => "2024-01-01T00:00:00Z"
|}.

Definition xterm : Platform := demo_platform "xterm" true true.
Definition xterm_offline : Platform := demo_platform "xterm" true false.
Definition dumb : Platform := demo_platform "dumb" true true.
Definition dumb_offline : Platform := demo_platform "dumb" false false.
Definition piped : Platform := demo_platform "xterm" false true.

(** The package right after program start: no handle, default flags. *)
Definition start (P : Platform) (e : Env P) : @World P :=
  @mkWorld P None false false true e [].

(** An opened package with chosen flags. *)
Definition opened (d v c : bool) : @World xterm :=
  @mkWorld xterm (Some 1%nat) d v c 1%nat [@EvSyslogNew xterm 28 "svc"].


(** ** Vocabulary for the rest of the package *)

(** Whether the byte ESC (27), which opens every ANSI sequence, occurs. *)
Fixpoint has_escape (str : string) : bool :=
  match str with
  | EmptyString => false
  | String c rest => Ascii.eqb c (ascii_of_nat 27) || has_escape rest
  end.

(** The switch of [PrintToScreen] (lines 116 to 141): the colour and the
    header of a level; both stay empty when no case matches. *)
Definition level_style (level : Z) : string * string :=
  if Z.eqb level L_EMERGENCY then (C_RED, M_EMERGENCY)
  else if Z.eqb level L_ALERT then (C_RED, M_ALERT)
  else if Z.eqb level L_CRITICAL then (C_YELLOW, M_CRITICAL)
  else if Z.eqb level L_ERROR then (C_YELLOW, M_ERROR)
  else if Z.eqb level L_WARNING then (C_MAGENTA, M_WARNING)
  else if Z.eqb level L_NOTICE then (C_CYAN, M_NOTICE)
  else if Z.eqb level L_INFO then (C_WHITE, M_INFO)
  else if Z.eqb level L_DEBUG then (C_GREEN, M_DEBUG)
  else ("", "").

(** The [Error()] method of an error value: its text. *)
Definition error_Error (e : error_value) : string :=
  match e with
  | errors_New text => text
  | foreign_error text => text
  end.

Section Usage.

Context {P : Platform}.

Notation "x <- m ;; k" := (bind m (fun x => k))
  (at level 61, m at next level, right associativity).
Notation "m ;; k" := (bind m (fun _ => k))
  (at level 61, right associativity).

(** The four package-level variables. *)
Definition globals (w : @World P)
  : option (Writer P) * bool * bool * bool :=
  (s w, debug w, verbose w, color w).

(** The calls that assign a package-level variable. *)
Definition assigns (c : @Call) : bool :=
  match c with
  | CallOpen _ | CallDisableColor | CallSetDebug _ | CallSetVerbose _ => true
  | _ => false
  end.

(** The one call that writes to both sinks. *)
Definition fans_out (c : @Call) : bool :=
  match c with
  | CallEmit SevEmergency _ => true
  | _ => false
  end.

(** Info and Debug pass only when [verbose] is set. *)
Definition gate_open (sev : Severity) (w : @World P) : bool :=
  match sev with
  | SevInfo | SevDebug => verbose w
  | _ => true
  end.

(** The world after the terminal line of [sev], and after a forward
    through method [m] of handle [h]. *)
Definition print_world (sev : Severity) (message : string) (w : @World P)
  : @World P :=
  record (EvStdout (terminal_line (color w) (timestamp w) sev message))
         (record EvNow (set_env (env_after_clock w) w)).

Definition forward_world (m : method) (h : Writer P) (message : string)
    (w : @World P) : @World P :=
  record (EvSyslogLog m h message)
         (set_env (snd (Writer_log P m h message (env w))) w).

(** The world after the Close method of handle [h] was called. *)
Definition close_world (h : Writer P) (w : @World P) : @World P :=
  record (EvSyslogClose h) (set_env (snd (Writer_Close P h (env w))) w).

(** The usage example of README.md (lines 8 to 37): [os.Exit(-1)] ends
    the program with that status; falling off the end of [main] is
    status 0.  The errors of the eight severities and of [Close] are
    dropped, as in the example. *)
Definition main : @M P Z :=
  err <- Open "Test" ;;
  match err with
  | Some e =>
      fmt_Printf ("Fatal error logger: %s" ++ LF) [error_Error e] ;;
      ret (-1)%Z
  | None =>
      SetDebug true ;;
      SetVerbose true ;;
      let m := "Test Message - Disregard." in
      Emergency m ;;
      Alert m ;;
      Critical m ;;
      Error m ;;
      Warning m ;;
      Notice m ;;
      Info m ;;
      Debug m ;;
      Close ;;
      ret 0%Z
  end.

End Usage.

(** ** Running the monad *)

Ltac run :=
  unfold bind, ret, gets, modify, throw, fmt_Printf; cbn [fst snd].

Lemma stdout_of_app (P : Platform) (t u : list (@Event P)) :
  stdout_of (t ++ u)%list = (stdout_of t ++ stdout_of u)%list.
Proof.
  induction t as [|ev t IH]; [reflexivity|].
  destruct ev; cbn; rewrite IH; reflexivity.
Qed.

Lemma syslog_of_app (P : Platform) (t u : list (@Event P)) :
  syslog_of (t ++ u)%list = (syslog_of t ++ syslog_of u)%list.
Proof. apply filter_app. Qed.

(** The world a terminal line leaves: the clock was read, and the line
    was written. *)
Lemma PrintToScreen_ordinal (P : Platform) (w : @World P) sev message :
  PrintToScreen (ordinal sev) message w =
  (Returned tt,
   record (EvStdout (terminal_line (color w) (timestamp w) sev message))
          (record EvNow (set_env (env_after_clock w) w))).
Proof.
  unfold PrintToScreen, timestamp, env_after_clock, call_time_Now.
  destruct sev; cbn [ordinal Z.eqb L_EMERGENCY L_ALERT L_CRITICAL L_ERROR
                     L_WARNING L_NOTICE L_INFO L_DEBUG Pos.eqb]; run;
    destruct (color w); cbn [negb];
    destruct (time_Now P (env w)) as [t e]; reflexivity.
Qed.

Lemma call_Writer_log_Some (P : Platform) (w : @World P) m h message :
  call_Writer_log m (Some h) message w =
  (Returned (fst (Writer_log P m h message (env w))),
   record (EvSyslogLog m h message)
          (set_env (snd (Writer_log P m h message (env w))) w)).
Proof.
  unfold call_Writer_log. destruct (Writer_log P m h message (env w)); reflexivity.
Qed.

(** What a forward of [message] at [sev] does in [w], handle [h]. *)
Lemma forward_run (P : Platform) (w : @World P) m h message :
  s w = Some h ->
  bind (gets s) (fun x => bind (call_Writer_log m x message) (fun e => ret e)) w =
  (Returned (fst (Writer_log P m h message (env w))),
   record (EvSyslogLog m h message)
          (set_env (snd (Writer_log P m h message (env w))) w)).
Proof.
  intros Hs. unfold bind at 1. unfold gets. rewrite Hs.
  unfold bind. rewrite call_Writer_log_Some. reflexivity.
Qed.

(** What the debug branch of a severity does. *)
Lemma print_run (P : Platform) (w : @World P) sev message :
  bind (PrintToScreen (ordinal sev) message) (fun _ => ret nil_error) w =
  (Returned nil_error,
   record (EvStdout (terminal_line (color w) (timestamp w) sev message))
          (record EvNow (set_env (env_after_clock w) w))).
Proof. unfold bind. rewrite PrintToScreen_ordinal. reflexivity. Qed.

(** The whole of [Emergency] on an open handle. *)
Lemma Emergency_run (P : Platform) (w : @World P) h message :
  s w = Some h ->
  Emergency message w =
  (Returned (fst (Writer_log P mEmerg h message (env_after_clock w))),
   record (EvSyslogLog mEmerg h message)
     (set_env (snd (Writer_log P mEmerg h message (env_after_clock w)))
        (record (EvStdout (terminal_line (color w) (timestamp w)
                                         SevEmergency message))
           (record EvNow (set_env (env_after_clock w) w))))).
Proof.
  intros Hs. unfold Emergency.
  change L_EMERGENCY with (ordinal SevEmergency).
  unfold bind at 1. rewrite PrintToScreen_ordinal.
  rewrite (forward_run P _ mEmerg h message) by exact Hs.
  reflexivity.
Qed.

(** ** Emission *)

(** C1. For every message and every world whose handle is open (whatever
    its debug, verbose and color flags), [Emergency] reads the clock,
    writes exactly one line to the terminal, then calls the Emerg method
    of the system log with the message, and returns exactly what that
    call returned. *)
Theorem Emergency_prints_and_forwards (P : Platform) (w : @World P)
    (h : Writer P) (message : string) :
  s w = Some h ->
  let r := Emergency message w in
  fst r = Returned (fst (Writer_log P mEmerg h message (env_after_clock w)))
  /\ trace (snd r) =
       (trace w ++ [EvNow;
                    EvStdout (terminal_line (color w) (timestamp w)
                                            SevEmergency message);
                    EvSyslogLog mEmerg h message])%list
  /\ stdout_of (trace (snd r)) =
       (stdout_of (trace w)
          ++ [terminal_line (color w) (timestamp w) SevEmergency message])%list.
Proof.
  intros Hs r. subst r. rewrite (Emergency_run P w h message Hs).
  cbn [fst snd trace record set_env env].
  split; [reflexivity|split].
  - rewrite <- !app_assoc. reflexivity.
  - rewrite !stdout_of_app. cbn [stdout_of]. rewrite !app_nil_r. reflexivity.
Qed.

Lemma Emergency_prints_and_forwards_witness :
  s (opened true false false) = Some 1%nat
  /\ fst (@Emergency xterm "fail" (opened true false false))
     = Returned (Some (foreign_error "write: broken pipe"))
  /\ stdout_of (trace (snd (@Emergency xterm "fail" (opened true false false))))
     = ["2024-01-01T00:00:00Z - EMERGENCY fail" ++ LF].
Proof.
  split; [reflexivity|].
  destruct (Emergency_prints_and_forwards xterm (opened true false false)
              1%nat "fail" eq_refl) as [Hr [_ Ho]].
  split; [exact Hr | exact Ho].
Defined.

(** The two branches of Alert, Critical, Error, Warning and Notice. *)
Lemma emit_debug_run (P : Platform) (w : @World P) sev message :
  (1 <= ordinal sev <= 5)%Z ->
  debug w = true ->
  emit sev message w =
  (Returned nil_error,
   record (EvStdout (terminal_line (color w) (timestamp w) sev message))
          (record EvNow (set_env (env_after_clock w) w))).
Proof.
  intros Ho Hd.
  destruct sev; cbn in Ho; try lia; cbn [emit];
    unfold Alert, Critical, Error, Warning, Notice;
    unfold bind at 1; unfold gets at 1; rewrite Hd; cbn [Bool.eqb];
    [ change L_ALERT with (ordinal SevAlert)
    | change L_CRITICAL with (ordinal SevCritical)
    | change L_ERROR with (ordinal SevError)
    | change L_WARNING with (ordinal SevWarning)
    | change L_NOTICE with (ordinal SevNotice) ];
    apply print_run.
Qed.

Lemma emit_forward_run (P : Platform) (w : @World P) sev h message :
  (1 <= ordinal sev <= 5)%Z ->
  debug w = false ->
  s w = Some h ->
  emit sev message w =
  (Returned (fst (Writer_log P (matching_method sev) h message (env w))),
   record (EvSyslogLog (matching_method sev) h message)
     (set_env (snd (Writer_log P (matching_method sev) h message (env w))) w)).
Proof.
  intros Ho Hd Hs.
  destruct sev; cbn in Ho; try lia; cbn [emit matching_method];
    unfold Alert, Critical, Error, Warning, Notice;
    unfold bind at 1; unfold gets at 1; rewrite Hd; cbn [Bool.eqb];
    apply forward_run; exact Hs.
Qed.

(** The three ways through Info and Debug. *)
Lemma emit_gated_run (P : Platform) (w : @World P) sev message :
  (6 <= ordinal sev <= 7)%Z ->
  verbose w = false ->
  emit sev message w = (Returned nil_error, w).
Proof.
  intros Ho Hv.
  destruct sev; cbn in Ho; try lia; cbn [emit]; unfold Info, Debug;
    unfold bind at 1; unfold gets at 1; rewrite Hv; reflexivity.
Qed.

Lemma emit_verbose_debug_run (P : Platform) (w : @World P) sev message :
  (6 <= ordinal sev <= 7)%Z ->
  verbose w = true ->
  debug w = true ->
  emit sev message w =
  (Returned nil_error,
   record (EvStdout (terminal_line (color w) (timestamp w) sev message))
          (record EvNow (set_env (env_after_clock w) w))).
Proof.
  intros Ho Hv Hd.
  destruct sev; cbn in Ho; try lia; cbn [emit]; unfold Info, Debug;
    unfold bind at 1; unfold gets at 1; rewrite Hv; cbn [Bool.eqb];
    unfold bind at 1; unfold gets at 1; rewrite Hd; cbn [Bool.eqb];
    [ change L_INFO with (ordinal SevInfo)
    | change L_DEBUG with (ordinal SevDebug) ];
    apply print_run.
Qed.

Lemma emit_verbose_forward_run (P : Platform) (w : @World P) sev h message :
  (6 <= ordinal sev <= 7)%Z ->
  verbose w = true ->
  debug w = false ->
  s w = Some h ->
  emit sev message w =
  (Returned (fst (Writer_log P (matching_method sev) h message (env w))),
   record (EvSyslogLog (matching_method sev) h message)
     (set_env (snd (Writer_log P (matching_method sev) h message (env w))) w)).
Proof.
  intros Ho Hv Hd Hs.
  destruct sev; cbn in Ho; try lia; cbn [emit matching_method];
    unfold Info, Debug;
    unfold bind at 1; unfold gets at 1; rewrite Hv; cbn [Bool.eqb];
    unfold bind at 1; unfold gets at 1; rewrite Hd; cbn [Bool.eqb];
    apply forward_run; exact Hs.
Qed.

(** The trace after one terminal line. *)
Lemma trace_after_print (P : Platform) (w : @World P) line e :
  trace (record (EvStdout line) (record EvNow (set_env e w)))
  = (trace w ++ [EvNow; EvStdout line])%list.
Proof. cbn. rewrite <- app_assoc. reflexivity. Qed.

(** C2. When [debug] is true, each of Alert, Critical, Error, Warning and
    Notice (the severities of ordinal 1 to 5) returns a nil error, adds to
    the trace the clock read and exactly one terminal line, the line of
    that severity, and makes no call on the system log. *)
Theorem debug_mode_prints_only (P : Platform) (w : @World P)
    (sev : Severity) (message : string) :
  (1 <= ordinal sev <= 5)%Z ->
  debug w = true ->
  let r := emit sev message w in
  fst r = Returned nil_error
  /\ trace (snd r) =
       (trace w ++ [EvNow;
                    EvStdout (terminal_line (color w) (timestamp w)
                                            sev message)])%list
  /\ stdout_of (trace (snd r)) =
       (stdout_of (trace w)
          ++ [terminal_line (color w) (timestamp w) sev message])%list
  /\ syslog_of (trace (snd r)) = syslog_of (trace w).
Proof.
  intros Ho Hd r. subst r. rewrite (emit_debug_run P w sev message Ho Hd).
  cbn [fst snd]. rewrite trace_after_print.
  split; [reflexivity|split; [reflexivity|split]].
  - rewrite stdout_of_app. reflexivity.
  - rewrite syslog_of_app. cbn. apply app_nil_r.
Qed.

Lemma debug_mode_prints_only_witness :
  fst (@Warning xterm "disk full" (opened true false false))
  = Returned nil_error
  /\ stdout_of (trace (snd (@Warning xterm "disk full"
                                     (opened true false false))))
     = ["2024-01-01T00:00:00Z - WARNING   disk full" ++ LF]
  /\ syslog_of (trace (snd (@Warning xterm "disk full"
                                     (opened true false false))))
     = [EvSyslogNew 28 "svc"].
Proof.
  assert (Ho : (1 <= ordinal SevWarning <= 5)%Z) by (cbn; lia).
  destruct (debug_mode_prints_only xterm (opened true false false)
              SevWarning "disk full" Ho eq_refl) as [Hr [_ [Hp Hs]]].
  split; [exact Hr | split; [exact Hp | exact Hs]].
Defined.

(** C3. When [debug] is false and the handle is open, each of Alert,
    Critical, Error, Warning and Notice calls the method of the system
    log that matches its severity (Alert, Crit, Err, Warning, Notice)
    with the message, writes nothing to the terminal, and returns exactly
    what that call returned. *)
Theorem syslog_mode_forwards (P : Platform) (w : @World P)
    (sev : Severity) (h : Writer P) (message : string) :
  (1 <= ordinal sev <= 5)%Z ->
  debug w = false ->
  s w = Some h ->
  let r := emit sev message w in
  fst r = Returned (fst (Writer_log P (matching_method sev) h message (env w)))
  /\ trace (snd r) =
       (trace w ++ [EvSyslogLog (matching_method sev) h message])%list
  /\ stdout_of (trace (snd r)) = stdout_of (trace w).
Proof.
  intros Ho Hd Hs r. subst r.
  rewrite (emit_forward_run P w sev h message Ho Hd Hs).
  cbn [fst snd record trace].
  split; [reflexivity|split; [reflexivity|]].
  rewrite stdout_of_app. cbn. apply app_nil_r.
Qed.

Lemma syslog_mode_forwards_witness :
  fst (@Critical xterm "fail" (opened false false true))
  = Returned (Some (foreign_error "write: broken pipe"))
  /\ trace (snd (@Critical xterm "fail" (opened false false true)))
     = [EvSyslogNew 28 "svc"; @EvSyslogLog xterm mCrit 1%nat "fail"]
  /\ stdout_of (trace (snd (@Critical xterm "fail" (opened false false true))))
     = [].
Proof.
  assert (Ho : (1 <= ordinal SevCritical <= 5)%Z) by (cbn; lia).
  destruct (syslog_mode_forwards xterm (opened false false true)
              SevCritical 1%nat "fail" Ho eq_refl eq_refl) as [Hr [Ht Hp]].
  split; [exact Hr | split; [exact Ht | exact Hp]].
Defined.

(** C4. Info and Debug (ordinals 6 and 7): when [verbose] is false they
    return a nil error and leave the world as it was (no terminal line,
    no call on the system log), whatever [debug] is; when [verbose] is
    true they choose the sink as the severities 1 to 5 do: with [debug]
    true one terminal line and a nil error, with [debug] false (handle
    open) one call of the Info, resp. Debug, method and its result. *)
Theorem verbosity_gate (P : Platform) (w : @World P)
    (sev : Severity) (message : string) :
  (6 <= ordinal sev <= 7)%Z ->
  let r := emit sev message w in
  (verbose w = false -> r = (Returned nil_error, w))
  /\ (verbose w = true -> debug w = true ->
      fst r = Returned nil_error
      /\ trace (snd r) =
           (trace w ++ [EvNow;
                        EvStdout (terminal_line (color w) (timestamp w)
                                                sev message)])%list
      /\ syslog_of (trace (snd r)) = syslog_of (trace w))
  /\ (verbose w = true -> debug w = false ->
      forall h, s w = Some h ->
      fst r = Returned (fst (Writer_log P (matching_method sev) h message
                                        (env w)))
      /\ trace (snd r) =
           (trace w ++ [EvSyslogLog (matching_method sev) h message])%list
      /\ stdout_of (trace (snd r)) = stdout_of (trace w)).
Proof.
  intros Ho r. subst r. split; [|split].
  - intros Hv. apply emit_gated_run; assumption.
  - intros Hv Hd. rewrite (emit_verbose_debug_run P w sev message Ho Hv Hd).
    cbn [fst snd]. rewrite trace_after_print.
    split; [reflexivity|split; [reflexivity|]].
    rewrite syslog_of_app. cbn. apply app_nil_r.
  - intros Hv Hd h Hs.
    rewrite (emit_verbose_forward_run P w sev h message Ho Hv Hd Hs).
    cbn [fst snd record trace].
    split; [reflexivity|split; [reflexivity|]].
    rewrite stdout_of_app. cbn. apply app_nil_r.
Qed.

Lemma verbosity_gate_witness :
  @Info xterm "x" (opened true false true)
  = (Returned nil_error, opened true false true)
  /\ (fst (@Debug xterm "x" (opened true true true)) = Returned nil_error
      /\ trace (snd (@Debug xterm "x" (opened true true true)))
         = [EvSyslogNew 28 "svc"; EvNow;
            EvStdout ("2024-01-01T00:00:00Z - " ++ C_GREEN ++ "DEBUG    "
                      ++ C_RESET ++ " x" ++ LF)])
  /\ (fst (@Debug xterm "x" (opened false true true)) = Returned nil_error
      /\ trace (snd (@Debug xterm "x" (opened false true true)))
         = [EvSyslogNew 28 "svc"; @EvSyslogLog xterm mDebug 1%nat "x"]).
Proof.
  assert (H6 : (6 <= ordinal SevInfo <= 7)%Z) by (cbn; lia).
  assert (H7 : (6 <= ordinal SevDebug <= 7)%Z) by (cbn; lia).
  split; [|split].
  - exact (proj1 (verbosity_gate xterm (opened true false true)
                    SevInfo "x" H6) eq_refl).
  - destruct (proj1 (proj2 (verbosity_gate xterm (opened true true true)
                              SevDebug "x" H7)) eq_refl eq_refl)
      as [Hr [Ht _]].
    split; [exact Hr | exact Ht].
  - destruct (proj2 (proj2 (verbosity_gate xterm (opened false true true)
                              SevDebug "x" H7)) eq_refl eq_refl 1%nat eq_refl)
      as [Hr [Ht _]].
    split; [exact Hr | exact Ht].
Defined.

(** ** The terminal line *)

(** C6. For each of the eight severities and every message, the line
    [PrintToScreen] writes at that severity's ordinal is the RFC 3339
    layout of the clock reading, [" - "], the colour prefix, the label
    padded to 9 characters, the colour reset, a blank, the message and a
    line feed; prefix and reset are empty when [color] is false, and are
    otherwise the escape sequence kept for the severity's colour in the
    table (red, red, yellow, yellow, magenta, cyan, white, green), which
    is the ANSI sequence painting that colour as background, and the one
    shared reset sequence.  Every padded label is 9 characters long. *)
Theorem terminal_line_format (P : Platform) (w : @World P)
    (sev : Severity) (message : string) :
  PrintToScreen (ordinal sev) message w =
    (Returned tt,
     record (EvStdout
               (Time_Format P (fst (time_Now P (env w))) time_RFC3339
                ++ " - "
                ++ (if color w then escape (severity_color sev) else "")
                ++ padded_label sev
                ++ (if color w then C_RESET else "")
                ++ " " ++ message ++ LF))
            (record EvNow (set_env (snd (time_Now P (env w))) w)))
  /\ String.length (padded_label sev) = 9%nat
  /\ (0 <= ordinal sev <= 7)%Z
  /\ escape (severity_color sev)
     = sgr (ansi_foreground (severity_color sev))
           (40 + ansi_index (severity_color sev))
  /\ C_RESET = ESC ++ "[0m".
Proof.
  split; [apply PrintToScreen_ordinal|].
  repeat split; destruct sev; cbn; first [reflexivity | lia].
Qed.

(** The example of the contract: "disk full" at Warning, colour off. *)
Example terminal_line_disk_full :
  stdout_of (trace (snd (@PrintToScreen xterm L_WARNING "disk full"
                                        (opened true false false))))
  = ["2024-01-01T00:00:00Z - WARNING   disk full" ++ LF].
Proof. reflexivity. Qed.

(** The enumeration covers exactly the levels 0 to 7. *)
Lemma ordinal_onto (level : Z) :
  (0 <= level <= 7)%Z -> exists sev, ordinal sev = level.
Proof.
  intros H.
  assert (C : (level = 0 \/ level = 1 \/ level = 2 \/ level = 3
               \/ level = 4 \/ level = 5 \/ level = 6 \/ level = 7)%Z) by lia.
  destruct C as [ -> | [ -> | [ -> | [ -> | [ -> | [ -> | [ -> | -> ] ] ] ] ] ] ];
    [ exists SevEmergency | exists SevAlert | exists SevCritical
    | exists SevError | exists SevWarning | exists SevNotice
    | exists SevInfo | exists SevDebug ]; reflexivity.
Qed.

(** ** Open *)

Lemma Open_detect_color_run (P : Platform) (w : @World P) :
  Open_detect_color w = (Returned nil_error, after_detection w).
Proof.
  unfold Open_detect_color, after_detection, no_color_terminal,
    detection_queries, orM, andM, call_os_Getenv, call_os_Stdout_Fd,
    call_isatty_IsTerminal, call_isatty_IsCygwinTerminal.
  run. cbn [env record].
  destruct (String.eqb (os_Getenv P "TERM" (env w)) "dumb"); cbn;
    [reflexivity|].
  destruct (isatty_IsTerminal P (os_Stdout_Fd P (env w)) (env w)); cbn;
    [unfold record; cbn; rewrite <- app_assoc; reflexivity|].
  destruct (isatty_IsCygwinTerminal P (os_Stdout_Fd P (env w)) (env w)); cbn;
    unfold record, set_color; cbn; rewrite <- !app_assoc; reflexivity.
Qed.

Lemma Open_empty_tag (P : Platform) (w : @World P) :
  Open "" w = (Returned (Some (errors_New "logger: tag cannot be empty")), w).
Proof. reflexivity. Qed.

Lemma eqb_nonempty (tag : string) : tag <> "" -> String.eqb tag "" = false.
Proof. intros H. apply String.eqb_neq. exact H. Qed.

(** [Open] on a tag that is not empty: the connection is attempted, [s]
    takes what it answered, and the answer decides the rest. *)
Lemma Open_nonempty_tag (P : Platform) (w : @World P) tag :
  tag <> "" ->
  Open tag w =
  match connect_error tag w with
  | Some e => (Returned (Some e), after_connect tag w)
  | None => (Returned nil_error, after_detection (after_connect tag w))
  end.
Proof.
  intros Ht. unfold Open. rewrite (eqb_nonempty tag Ht). cbn [negb].
  unfold connect_error, after_connect, call_syslog_New.
  unfold bind at 1.
  destruct (syslog_New P (Z.lor LOG_WARNING LOG_DAEMON) tag (env w))
    as [[x err] e'].
  run. destruct err as [e|]; [reflexivity|].
  rewrite Open_detect_color_run. reflexivity.
Qed.

(** C5. [Open] with the empty tag returns the error the package builds
    itself ("logger: tag cannot be empty") and leaves the world as it
    was, so [syslog.New] is not called.  With a tag that is not empty the
    first thing [Open] does is call [syslog.New] with the priority
    [LOG_WARNING|LOG_DAEMON] (severity bits warning, facility bits
    daemon) and the tag; when that call answers an error, [Open] returns
    that same error and does nothing more. *)
Theorem Open_error_paths (P : Platform) (w : @World P) (tag : string) :
  Open "" w = (Returned (Some (errors_New "logger: tag cannot be empty")), w)
  /\ Z.land (Z.lor LOG_WARNING LOG_DAEMON) 7 = LOG_WARNING
  /\ Z.shiftl (Z.shiftr (Z.lor LOG_WARNING LOG_DAEMON) 3) 3 = LOG_DAEMON
  /\ (tag <> "" ->
      (exists rest,
          trace (snd (Open tag w)) =
          (trace w ++ EvSyslogNew (Z.lor LOG_WARNING LOG_DAEMON) tag
                   :: rest)%list)
      /\ forall e,
          snd (fst (syslog_New P (Z.lor LOG_WARNING LOG_DAEMON) tag (env w)))
          = Some e ->
          fst (Open tag w) = Returned (Some e)
          /\ trace (snd (Open tag w)) =
             (trace w ++ [EvSyslogNew (Z.lor LOG_WARNING LOG_DAEMON) tag])%list).
Proof.
  split; [apply Open_empty_tag|].
  split; [reflexivity|]. split; [reflexivity|].
  intros Ht. rewrite (Open_nonempty_tag P w tag Ht).
  unfold connect_error. split.
  - destruct (snd (fst (syslog_New P _ tag (env w)))).
    + exists []. reflexivity.
    + exists (detection_queries (env (after_connect tag w))).
      cbn. rewrite <- app_assoc. reflexivity.
  - intros e He. rewrite He. split; reflexivity.
Qed.

Lemma Open_error_paths_witness :
  "svc" <> ""
  /\ fst (@Open xterm_offline "svc" (start xterm_offline 0%nat))
     = Returned (Some (foreign_error "dial unixgram: no such file"))
  /\ trace (snd (@Open xterm_offline "svc"
                       (start xterm_offline 0%nat)))
     = [EvSyslogNew 28 "svc"].
Proof.
  assert (Ht : "svc" <> "") by discriminate.
  split; [exact Ht|].
  destruct (Open_error_paths xterm_offline (start xterm_offline 0%nat) "svc")
    as [_ [_ [_ Hconnect]]].
  destruct (Hconnect Ht) as [_ Hfail].
  exact (Hfail (foreign_error "dial unixgram: no such file") eq_refl).
Defined.

(** C7. When [Open] succeeds, [color] afterwards is false if the TERM
    variable is "dumb" or standard output is neither a terminal nor a
    Cygwin terminal (read in the environment the connection left), and in
    every other case it is what it was before the call: [Open] never
    turns colour on. *)
Theorem Open_color_detection (P : Platform) (w : @World P) (tag : string) :
  fst (Open tag w) = Returned nil_error ->
  let w' := snd (Open tag w) in
  color w' = (if no_color_terminal (env w') then false else color w)
  /\ (color w' = false <->
      no_color_terminal (env w') = true \/ color w = false).
Proof.
  intros Hok w'. subst w'.
  destruct (String.eqb tag "") eqn:Et.
  - apply String.eqb_eq in Et. subst tag.
    rewrite Open_empty_tag in Hok. discriminate.
  - apply String.eqb_neq in Et.
    rewrite (Open_nonempty_tag P w tag Et) in *.
    destruct (connect_error tag w); [discriminate|].
    cbn [snd after_detection env color after_connect].
    split; [reflexivity|].
    destruct (no_color_terminal _); [tauto|].
    split; [auto | intros [H|H]; [discriminate | exact H]].
Qed.

Lemma Open_color_detection_witness :
  fst (@Open dumb "svc" (start dumb 0%nat))
  = Returned nil_error
  /\ color (snd (@Open dumb "svc"
                       (start dumb 0%nat))) = false
  /\ color (snd (@Open xterm "svc" (start xterm 0%nat))) = true.
Proof.
  split; [reflexivity|]. split.
  - exact (proj1 (Open_color_detection dumb
                    (start dumb 0%nat) "svc" eq_refl)).
  - exact (proj1 (Open_color_detection xterm (start xterm 0%nat) "svc" eq_refl)).
Defined.

(** C10. Whenever [Open] returns an error, for an empty tag or for a
    failed connection, [color] is what it was before the call and no
    terminal query was made: the queries come only after the connection
    is established. *)
Theorem Open_failure_keeps_color (P : Platform) (w : @World P)
    (tag : string) (e : error_value) :
  fst (Open tag w) = Returned (Some e) ->
  color (snd (Open tag w)) = color w
  /\ filter is_terminal_query (trace (snd (Open tag w)))
     = filter is_terminal_query (trace w).
Proof.
  intros Herr.
  destruct (String.eqb tag "") eqn:Et.
  - apply String.eqb_eq in Et. subst tag.
    rewrite Open_empty_tag. split; reflexivity.
  - apply String.eqb_neq in Et.
    rewrite (Open_nonempty_tag P w tag Et) in *.
    destruct (connect_error tag w); [|discriminate].
    cbn [snd after_connect color trace]. split; [reflexivity|].
    rewrite filter_app. cbn. apply app_nil_r.
Qed.

Lemma Open_failure_keeps_color_witness :
  color (snd (@Open dumb_offline "svc"
                    (start dumb_offline 0%nat))) = true
  /\ color (snd (@Open dumb ""
                       (start dumb 0%nat))) = true.
Proof.
  split.
  - exact (proj1 (Open_failure_keeps_color dumb_offline
                    (start dumb_offline 0%nat) "svc"
                    (foreign_error "dial unixgram: no such file") eq_refl)).
  - exact (proj1 (Open_failure_keeps_color dumb
                    (start dumb 0%nat) ""
                    (errors_New "logger: tag cannot be empty") eq_refl)).
Defined.

(** ** What every call keeps *)

Section Preservation.

Context {P : Platform}.
Variable I : @World P -> Prop.

Lemma preserves_ret {A} (a : A) : preserves I (ret a).
Proof. intros w Hw. exact Hw. Qed.

Lemma preserves_gets {A} (f : @World P -> A) : preserves I (gets f).
Proof. intros w Hw. exact Hw. Qed.

Lemma preserves_throw {A} (p : panic) : preserves I (@throw P A p).
Proof. intros w Hw. exact Hw. Qed.

Lemma preserves_bind {A B} (m : @M P A) (k : A -> @M P B) :
  preserves I m -> (forall a, preserves I (k a)) -> preserves I (bind m k).
Proof.
  intros Hm Hk w Hw. unfold bind.
  specialize (Hm w Hw). destruct (m w) as [[a|p] w']; cbn in *.
  - apply Hk. exact Hm.
  - exact Hm.
Qed.

Lemma preserves_modify (f : @World P -> @World P) :
  (forall w, I w -> I (f w)) -> preserves I (modify f).
Proof. intros Hf w Hw. apply Hf. exact Hw. Qed.

Lemma preserves_forget {A} (m : @M P A) :
  preserves I m -> preserves I (forget m).
Proof.
  intros Hm w Hw. unfold forget. specialize (Hm w Hw).
  destruct (m w) as [[a|p] w']; exact Hm.
Qed.

End Preservation.

(** Nothing outside the package touches [color]. *)
Lemma color_off_syslog_New (P : Platform) priority tag :
  preserves (@color_off P) (call_syslog_New priority tag).
Proof.
  intros w Hw. unfold call_syslog_New.
  destruct (syslog_New P priority tag (env w)). exact Hw.
Qed.

Lemma color_off_Writer_log (P : Platform) m recv message :
  preserves (@color_off P) (call_Writer_log m recv message).
Proof.
  intros w Hw. destruct recv as [h|]; [|exact Hw].
  unfold call_Writer_log. destruct (Writer_log P m h message (env w)). exact Hw.
Qed.

Lemma color_off_Writer_Close (P : Platform) recv :
  preserves (@color_off P) (call_Writer_Close recv).
Proof.
  intros w Hw. destruct recv as [h|]; [|exact Hw].
  unfold call_Writer_Close. destruct (Writer_Close P h (env w)). exact Hw.
Qed.

Lemma color_off_time_Now (P : Platform) :
  preserves (@color_off P) call_time_Now.
Proof.
  intros w Hw. unfold call_time_Now. destruct (time_Now P (env w)). exact Hw.
Qed.

Lemma color_off_queries (P : Platform) key fd :
  preserves (@color_off P) (call_os_Getenv key)
  /\ preserves (@color_off P) call_os_Stdout_Fd
  /\ preserves (@color_off P) (call_isatty_IsTerminal fd)
  /\ preserves (@color_off P) (call_isatty_IsCygwinTerminal fd).
Proof. repeat split; intros w Hw; exact Hw. Qed.

Lemma color_off_Printf (P : Platform) format args :
  preserves (@color_off P) (fmt_Printf format args).
Proof. intros w Hw. exact Hw. Qed.

Lemma color_off_set_color_false (P : Platform) :
  preserves (@color_off P) (modify (set_color false)).
Proof. intros w Hw. reflexivity. Qed.

Lemma color_off_setters (P : Platform) b x :
  preserves (@color_off P) (modify (set_debug b))
  /\ preserves (@color_off P) (modify (set_verbose b))
  /\ preserves (@color_off P) (modify (set_s x)).
Proof. repeat split; intros w Hw; exact Hw. Qed.

Create HintDb color_off discriminated.

#[local] Hint Resolve preserves_ret preserves_gets preserves_throw
  color_off_syslog_New color_off_Writer_log color_off_Writer_Close
  color_off_time_Now color_off_Printf color_off_set_color_false : color_off.

Ltac keep_color :=
  repeat first
    [ solve [auto with color_off]
    | apply (proj1 (color_off_queries _ _ 0%Z))
    | apply (proj1 (proj2 (color_off_queries _ "" 0%Z)))
    | apply (proj1 (proj2 (proj2 (color_off_queries _ "" _))))
    | apply (proj2 (proj2 (proj2 (color_off_queries _ "" _))))
    | apply (proj1 (color_off_setters _ _ None))
    | apply (proj1 (proj2 (color_off_setters _ _ None)))
    | apply (proj2 (proj2 (color_off_setters _ true _)))
    | apply preserves_bind; [|intros ?]
    | match goal with
      | |- preserves _ (if ?b then _ else _) => destruct b
      | |- preserves _ (match ?x with _ => _ end) => destruct x
      end ].

Lemma color_off_PrintToScreen (P : Platform) level message :
  preserves (@color_off P) (PrintToScreen level message).
Proof. unfold PrintToScreen. keep_color. Qed.

Lemma color_off_Open (P : Platform) tag :
  preserves (@color_off P) (Open tag).
Proof. unfold Open, Open_detect_color, orM, andM. keep_color. Qed.

Lemma color_off_emit (P : Platform) sev message :
  preserves (@color_off P) (emit sev message).
Proof.
  pose proof (color_off_PrintToScreen P) as Hp.
  destruct sev; cbn [emit];
    unfold Emergency, Alert, Critical, Error, Warning, Notice, Info, Debug;
    keep_color.
Qed.

(** C8. [color] never comes back: for every call of an exported function
    ([Open], [Close], [PrintToScreen], [DisableColor], [SetDebug],
    [SetVerbose] and the eight severities) and every world, if [color] is
    false before the call it is false after it, whether the call returns
    or panics. *)
Theorem color_never_reenabled (P : Platform) (c : Call) (w : @World P) :
  color w = false -> color (snd (exec c w)) = false.
Proof.
  revert w. change (preserves (@color_off P) (exec c)).
  destruct c; cbn [exec].
  - apply preserves_forget, color_off_Open.
  - apply preserves_forget. unfold Close. keep_color.
  - apply color_off_PrintToScreen.
  - apply color_off_set_color_false.
  - apply (color_off_setters P b None).
  - apply (color_off_setters P b None).
  - apply preserves_forget, color_off_emit.
Qed.

Lemma color_never_reenabled_witness :
  color (opened true true false) = false
  /\ color (snd (exec (CallOpen "svc") (opened true true false))) = false
  /\ color (snd (exec (CallEmit SevDebug "x") (opened true true false)))
     = false.
Proof.
  split; [reflexivity|]. split.
  - exact (color_never_reenabled xterm (CallOpen "svc")
             (opened true true false) eq_refl).
  - exact (color_never_reenabled xterm (CallEmit SevDebug "x")
             (opened true true false) eq_refl).
Defined.

(** ** The handle *)

Lemma PrintToScreen_returns (P : Platform) (w : @World P) level message :
  fst (PrintToScreen level message w) = Returned tt
  /\ s (snd (PrintToScreen level message w)) = s w.
Proof.
  unfold PrintToScreen, call_time_Now. run.
  destruct (if Z.eqb level L_EMERGENCY then _ else _) as [mColor mHeader].
  destruct (if negb (color w) then _ else _) as [c r].
  destruct (time_Now P (env w)) as [t e]. split; reflexivity.
Qed.

Lemma Open_returns (P : Platform) (w : @World P) tag :
  panicked (Open tag w) = false.
Proof.
  destruct (String.eqb tag "") eqn:Et.
  - apply String.eqb_eq in Et. subst tag. reflexivity.
  - apply String.eqb_neq in Et. rewrite (Open_nonempty_tag P w tag Et).
    destruct (connect_error tag w); reflexivity.
Qed.

Lemma panicked_forget (P : Platform) {A} (m : @M P A) (w : @World P) :
  panicked (forget m w) = panicked (m w).
Proof. unfold forget, panicked. destruct (m w) as [[a|p] w']; reflexivity. Qed.

(** A method call on the handle panics exactly when the handle is nil. *)
Lemma forward_panics (P : Platform) (w : @World P) m message :
  panicked (bind (gets s)
              (fun x => bind (call_Writer_log m x message)
                          (fun e => ret e)) w)
  = match s w with Some _ => false | None => true end.
Proof.
  destruct (s w) as [h|] eqn:Hs.
  - rewrite (forward_run P w m h message Hs). reflexivity.
  - unfold bind, gets. rewrite Hs. reflexivity.
Qed.

Lemma print_then_panics (P : Platform) {A} (w : @World P) level message
    (k : @M P A) :
  panicked (bind (PrintToScreen level message) (fun _ => k) w)
  = panicked (k (snd (PrintToScreen level message w))).
Proof.
  unfold bind. destruct (PrintToScreen_returns P w level message) as [Hr _].
  destruct (PrintToScreen level message w) as [[u|p] w']; cbn in *;
    [reflexivity | discriminate].
Qed.

Lemma emit_panics (P : Platform) (w : @World P) sev message :
  panicked (emit sev message w)
  = match s w with
    | Some _ => false
    | None => dereferences (CallEmit sev message) w
    end.
Proof.
  destruct sev; cbn [emit dereferences];
    unfold Emergency, Alert, Critical, Error, Warning, Notice, Info, Debug.
  - rewrite print_then_panics, forward_panics.
    rewrite (proj2 (PrintToScreen_returns P w L_EMERGENCY message)).
    reflexivity.
  - unfold bind at 1, gets at 1. destruct (debug w); cbn [Bool.eqb negb].
    + rewrite print_then_panics. destruct (s w); reflexivity.
    + apply forward_panics.
  - unfold bind at 1, gets at 1. destruct (debug w); cbn [Bool.eqb negb].
    + rewrite print_then_panics. destruct (s w); reflexivity.
    + apply forward_panics.
  - unfold bind at 1, gets at 1. destruct (debug w); cbn [Bool.eqb negb].
    + rewrite print_then_panics. destruct (s w); reflexivity.
    + apply forward_panics.
  - unfold bind at 1, gets at 1. destruct (debug w); cbn [Bool.eqb negb].
    + rewrite print_then_panics. destruct (s w); reflexivity.
    + apply forward_panics.
  - unfold bind at 1, gets at 1. destruct (debug w); cbn [Bool.eqb negb].
    + rewrite print_then_panics. destruct (s w); reflexivity.
    + apply forward_panics.
  - unfold bind at 1, gets at 1.
    destruct (verbose w); cbn [Bool.eqb andb];
      [|destruct (s w); reflexivity].
    unfold bind at 1, gets at 1. destruct (debug w); cbn [Bool.eqb negb].
    + rewrite print_then_panics. destruct (s w); reflexivity.
    + apply forward_panics.
  - unfold bind at 1, gets at 1.
    destruct (verbose w); cbn [Bool.eqb andb];
      [|destruct (s w); reflexivity].
    unfold bind at 1, gets at 1. destruct (debug w); cbn [Bool.eqb negb].
    + rewrite print_then_panics. destruct (s w); reflexivity.
    + apply forward_panics.
Qed.

Lemma Close_panics (P : Platform) (w : @World P) :
  panicked (Close w) = match s w with Some _ => false | None => true end.
Proof.
  unfold Close, bind, gets, call_Writer_Close.
  destruct (s w) as [h|]; [|reflexivity].
  destruct (Writer_Close P h (env w)). reflexivity.
Qed.

(** C9. While the handle is there ([s] is not nil), no call of an
    exported function panics: [Close], [Emergency] and the forwarding
    path of the other seven severities all find a handle to call.  The
    code has no nil guard: with [s] nil, a call panics on the nil
    dereference exactly when it reaches a method of the handle ([Close],
    [Emergency], Alert to Notice with [debug] false, Info and Debug with
    [verbose] true and [debug] false). *)
Theorem handle_precondition (P : Platform) (c : Call) (w : @World P) :
  (forall h, s w = Some h -> panicked (exec c w) = false)
  /\ (s w = None -> panicked (exec c w) = dereferences c w).
Proof.
  assert (H : panicked (exec c w)
              = match s w with Some _ => false | None => dereferences c w end).
  { destruct c; cbn [exec].
    - rewrite panicked_forget, Open_returns. destruct (s w); reflexivity.
    - rewrite panicked_forget, Close_panics. reflexivity.
    - unfold panicked.
      rewrite (proj1 (PrintToScreen_returns P w level message)).
      destruct (s w); reflexivity.
    - destruct (s w); reflexivity.
    - destruct (s w); reflexivity.
    - destruct (s w); reflexivity.
    - rewrite panicked_forget. apply emit_panics. }
  split.
  - intros h Hs. rewrite H, Hs. reflexivity.
  - intros Hs. rewrite H, Hs. reflexivity.
Qed.

Lemma handle_precondition_witness :
  panicked (exec (CallEmit SevEmergency "x") (opened true false true)) = false
  /\ panicked (exec CallClose (opened false false true)) = false
  /\ panicked (exec (CallEmit SevEmergency "x") (start xterm 0%nat)) = true
  /\ panicked (exec (CallEmit SevAlert "x") (start xterm 0%nat)) = true
  /\ panicked (exec (CallEmit SevInfo "x") (start xterm 0%nat)) = false.
Proof.
  refine (conj _ (conj _ (conj _ (conj _ _)))).
  - exact (proj1 (handle_precondition xterm (CallEmit SevEmergency "x")
                    (opened true false true)) 1%nat eq_refl).
  - exact (proj1 (handle_precondition xterm CallClose
                    (opened false false true)) 1%nat eq_refl).
  - exact (proj2 (handle_precondition xterm (CallEmit SevEmergency "x")
                    (start xterm 0%nat)) eq_refl).
  - exact (proj2 (handle_precondition xterm (CallEmit SevAlert "x")
                    (start xterm 0%nat)) eq_refl).
  - exact (proj2 (handle_precondition xterm (CallEmit SevInfo "x")
                    (start xterm 0%nat)) eq_refl).
Defined.

(** ** A run of the whole package *)

(** [Open("svc")], [SetVerbose(true)], [SetDebug(true)], [Debug("x")]:
    one green DEBUG line and a nil error; after [SetDebug(false)] the
    same call goes to the Debug method of the system log instead. *)
Example scenario_debug_line :
  let w1 := snd (@Open xterm "svc" (start xterm 0%nat)) in
  let w2 := snd (SetVerbose true w1) in
  let w3 := snd (SetDebug true w2) in
  let w4 := snd (SetDebug false w3) in
  fst (Debug "x" w3) = Returned nil_error
  /\ stdout_of (trace (snd (Debug "x" w3)))
     = ["2024-01-01T00:00:00Z - " ++ C_GREEN ++ "DEBUG    " ++ C_RESET
        ++ " x" ++ LF]
  /\ syslog_of (trace (snd (Debug "x" w3))) = [EvSyslogNew 28 "svc"]
  /\ fst (Debug "x" w4) = Returned nil_error
  /\ stdout_of (trace (snd (Debug "x" w4))) = []
  /\ syslog_of (trace (snd (Debug "x" w4)))
     = [EvSyslogNew 28 "svc"; @EvSyslogLog xterm mDebug 1%nat "x"].
Proof. cbv zeta. repeat split. Qed.

(** ** Beyond the contract: every way through each function *)

Lemma PrintToScreen_style (P : Platform) (w : @World P) level message :
  PrintToScreen level message w =
  (Returned tt,
   record (EvStdout (timestamp w ++ " - "
                     ++ (if color w then fst (level_style level) else "")
                     ++ snd (level_style level)
                     ++ (if color w then C_RESET else "")
                     ++ " " ++ message ++ LF))
          (record EvNow (set_env (env_after_clock w) w))).
Proof.
  unfold PrintToScreen, level_style, timestamp, env_after_clock,
    call_time_Now. run.
  destruct (if Z.eqb level L_EMERGENCY then _ else _) as [mColor mHeader].
  destruct (color w); cbn [negb fst snd];
    destruct (time_Now P (env w)) as [t e]; reflexivity.
Qed.

Lemma forward_nil (P : Platform) (w : @World P) m message :
  s w = None ->
  bind (gets s) (fun x => bind (call_Writer_log m x message)
                            (fun e => ret e)) w
  = (Panicked NilDereference, w).
Proof. intros Hs. unfold bind, gets. rewrite Hs. reflexivity. Qed.

Lemma Emergency_nil (P : Platform) (w : @World P) message :
  s w = None ->
  Emergency message w
  = (Panicked NilDereference, print_world SevEmergency message w).
Proof.
  intros Hs. unfold Emergency.
  change L_EMERGENCY with (ordinal SevEmergency).
  unfold bind at 1. rewrite PrintToScreen_ordinal.
  apply forward_nil. exact Hs.
Qed.

(** Every way through the seven severities below Emergency. *)
Lemma emit_unfold (P : Platform) (w : @World P) sev message :
  sev <> SevEmergency ->
  emit sev message w =
  if gate_open sev w then
    if debug w then (Returned nil_error, print_world sev message w)
    else match s w with
         | Some h =>
             (Returned (fst (Writer_log P (matching_method sev) h message
                                        (env w))),
              forward_world (matching_method sev) h message w)
         | None => (Panicked NilDereference, w)
         end
  else (Returned nil_error, w).
Proof.
  intros Hne.
  assert (Hcases : (1 <= ordinal sev <= 5)%Z \/ (6 <= ordinal sev <= 7)%Z)
    by (destruct sev; cbn; try lia; congruence).
  destruct Hcases as [Ho|Ho].
  - assert (Hg : gate_open sev w = true)
      by (destruct sev; cbn in Ho; try lia; reflexivity).
    rewrite Hg. destruct (debug w) eqn:Hd.
    + apply emit_debug_run; assumption.
    + destruct (s w) as [h|] eqn:Hs.
      * apply emit_forward_run; assumption.
      * destruct sev; cbn in Ho; try lia; cbn [emit];
          unfold Alert, Critical, Error, Warning, Notice;
          unfold bind at 1; unfold gets at 1; rewrite Hd; cbn [Bool.eqb];
          apply forward_nil; exact Hs.
  - assert (Hg : gate_open sev w = verbose w)
      by (destruct sev; cbn in Ho; try lia; reflexivity).
    rewrite Hg. destruct (verbose w) eqn:Hv.
    + destruct (debug w) eqn:Hd.
      * apply emit_verbose_debug_run; assumption.
      * destruct (s w) as [h|] eqn:Hs.
        -- apply emit_verbose_forward_run; assumption.
        -- destruct sev; cbn in Ho; try lia; cbn [emit]; unfold Info, Debug;
             unfold bind at 1; unfold gets at 1; rewrite Hv; cbn [Bool.eqb];
             unfold bind at 1; unfold gets at 1; rewrite Hd; cbn [Bool.eqb];
             apply forward_nil; exact Hs.
    + apply emit_gated_run; assumption.
Qed.

Lemma Close_run (P : Platform) (w : @World P) h :
  s w = Some h ->
  Close w =
  (Returned (fst (Writer_Close P h (env w))),
   record (EvSyslogClose h) (set_env (snd (Writer_Close P h (env w))) w)).
Proof.
  intros Hs. unfold Close, bind, gets, call_Writer_Close, ret. rewrite Hs.
  destruct (Writer_Close P h (env w)). reflexivity.
Qed.

Lemma Close_nil (P : Platform) (w : @World P) :
  s w = None -> Close w = (Panicked NilDereference, w).
Proof.
  intros Hs. unfold Close, bind, gets, call_Writer_Close. rewrite Hs.
  reflexivity.
Qed.

Lemma has_escape_app (a b : string) :
  has_escape (a ++ b) = has_escape a || has_escape b.
Proof.
  induction a as [|c a IH]; [reflexivity|].
  cbn. rewrite IH. apply orb_assoc.
Qed.

Lemma level_style_header_plain (level : Z) :
  has_escape (snd (level_style level)) = false.
Proof.
  unfold level_style.
  repeat match goal with
         | |- context [if ?b then _ else _] => destruct b
         end; reflexivity.
Qed.

Lemma level_style_out_of_range (level : Z) :
  (level < 0 \/ 7 < level)%Z -> level_style level = ("", "").
Proof.
  intros H. unfold level_style, L_EMERGENCY, L_ALERT, L_CRITICAL, L_ERROR,
    L_WARNING, L_NOTICE, L_INFO, L_DEBUG.
  repeat match goal with
         | |- context [Z.eqb level ?k] =>
             let E := fresh in
             destruct (Z.eqb_spec level k) as [E|E]; [lia|]
         end.
  reflexivity.
Qed.


(** ** Close *)

(** X1. On an open handle [Close] calls the Close method of that handle
    once and returns its result; it does not reset [s] (nor any flag), so
    a second [Close] reaches the same handle again. *)
Theorem Close_keeps_handle (P : Platform) (w : @World P) (h : Writer P) :
  s w = Some h ->
  let r := Close w in
  fst r = Returned (fst (Writer_Close P h (env w)))
  /\ trace (snd r) = (trace w ++ [EvSyslogClose h])%list
  /\ globals (snd r) = globals w
  /\ trace (snd (Close (snd r)))
     = (trace w ++ [EvSyslogClose h; EvSyslogClose h])%list.
Proof.
  intros Hs r. subst r. rewrite (Close_run P w h Hs). cbn [fst snd].
  split; [reflexivity|]. split; [reflexivity|]. split; [reflexivity|].
  rewrite (Close_run P _ h) by exact Hs.
  cbn [snd trace record set_env]. rewrite <- app_assoc. reflexivity.
Qed.

Lemma Close_keeps_handle_witness :
  s (snd (@Close xterm (opened false false true))) = Some 1%nat
  /\ trace (snd (@Close xterm (snd (@Close xterm (opened false false true)))))
     = [EvSyslogNew 28 "svc"; @EvSyslogClose xterm 1%nat;
        @EvSyslogClose xterm 1%nat].
Proof.
  destruct (Close_keeps_handle xterm (opened false false true) 1%nat eq_refl)
    as [_ [_ [Hg Ht]]].
  split; [exact (f_equal (fun g => fst (fst (fst g))) Hg) | exact Ht].
Defined.

(** ** PrintToScreen outside the eight levels *)

(** X2. For a level below 0 or above 7 no case of the switch matches:
    [PrintToScreen] still reads the clock and writes one line, with an
    empty header and no colour prefix, but with the reset sequence when
    [color] is on. *)
Theorem PrintToScreen_unknown_level (P : Platform) (w : @World P)
    (level : Z) (message : string) :
  (level < 0 \/ 7 < level)%Z ->
  PrintToScreen level message w =
  (Returned tt,
   record (EvStdout (timestamp w ++ " - "
                     ++ (if color w then C_RESET else "")
                     ++ " " ++ message ++ LF))
          (record EvNow (set_env (env_after_clock w) w))).
Proof.
  intros H. rewrite PrintToScreen_style, (level_style_out_of_range level H).
  destruct (color w); reflexivity.
Qed.

Lemma PrintToScreen_unknown_level_witness :
  stdout_of (trace (snd (@PrintToScreen xterm 8 "x" (opened false false false))))
  = ["2024-01-01T00:00:00Z -  x" ++ LF]
  /\ stdout_of (trace (snd (@PrintToScreen xterm (-1) "x"
                                           (opened false false true))))
     = ["2024-01-01T00:00:00Z - " ++ C_RESET ++ " x" ++ LF].
Proof.
  split.
  - rewrite (PrintToScreen_unknown_level xterm (opened false false false)
               8 "x" (or_intror eq_refl)).
    reflexivity.
  - rewrite (PrintToScreen_unknown_level xterm (opened false false true)
               (-1) "x" (or_introl eq_refl)).
    reflexivity.
Defined.

(** ** DisableColor *)

(** X3. After [DisableColor], whatever [color] was, [PrintToScreen] at
    any level writes exactly one line, and that line holds no ESC byte
    (so no ANSI sequence) as long as the timestamp and the message hold
    none. *)
Theorem no_escape_after_DisableColor (P : Platform) (w : @World P)
    (level : Z) (message : string) :
  has_escape (timestamp w) = false ->
  has_escape message = false ->
  exists line,
    stdout_of (trace (snd (PrintToScreen level message
                                         (snd (DisableColor w)))))
    = (stdout_of (trace w) ++ [line])%list
    /\ has_escape line = false.
Proof.
  intros Hts Hm. rewrite PrintToScreen_style.
  cbn [snd DisableColor modify set_color color trace record set_env].
  eexists. split.
  - rewrite <- app_assoc, stdout_of_app. cbn [stdout_of app]. reflexivity.
  - change (timestamp (set_color false w)) with (timestamp w).
    rewrite !has_escape_app, Hts, Hm, level_style_header_plain. reflexivity.
Qed.

Lemma no_escape_after_DisableColor_witness :
  exists line,
    stdout_of (trace (snd (@PrintToScreen xterm 0 "disk full"
                             (snd (DisableColor (opened true false true))))))
    = [line]
    /\ has_escape line = false.
Proof.
  destruct (no_escape_after_DisableColor xterm (opened true false true)
              0 "disk full" eq_refl eq_refl) as [line [Hl He]].
  exists line. split; [exact Hl | exact He].
Defined.

(** ** What a call leaves alone *)

(** X4. Only [Open] and the three setters assign a package variable:
    [Close], [PrintToScreen] and the eight severities leave [s], [debug],
    [verbose] and [color] as they were, whether they return or panic. *)
Theorem emission_keeps_globals (P : Platform) (c : Call) (w : @World P) :
  assigns c = false ->
  globals (snd (exec c w)) = globals w.
Proof.
  intros Hc. destruct c; cbn in Hc; try discriminate; cbn [exec].
  - unfold forget. destruct (s w) as [h|] eqn:Hs.
    + rewrite (Close_run P w h Hs). unfold globals. cbn. rewrite Hs.
      reflexivity.
    + rewrite (Close_nil P w Hs). reflexivity.
  - rewrite PrintToScreen_style. reflexivity.
  - unfold forget. destruct sev;
      try (rewrite emit_unfold by discriminate;
           destruct (gate_open _ w); [|reflexivity];
           destruct (debug w); [reflexivity|];
           destruct (s w); reflexivity).
    cbn [emit]. destruct (s w) as [h|] eqn:Hs.
    + rewrite (Emergency_run P w h message Hs). unfold globals. cbn.
      rewrite Hs. reflexivity.
    + rewrite (Emergency_nil P w message Hs). unfold globals. cbn.
      rewrite Hs. reflexivity.
Qed.

Lemma emission_keeps_globals_witness :
  globals (snd (exec (CallEmit SevEmergency "x") (opened true true true)))
  = (Some 1%nat, true, true, true)
  /\ globals (snd (exec CallClose (start xterm 0%nat)))
     = (None, false, false, true).
Proof.
  split.
  - exact (emission_keeps_globals xterm (CallEmit SevEmergency "x")
             (opened true true true) eq_refl).
  - exact (emission_keeps_globals xterm CallClose (start xterm 0%nat) eq_refl).
Defined.

(** ** Open, again *)

(** X5. A successful [Open] (tag not empty, [syslog.New] answers no
    error) stores the handle [syslog.New] answered in [s], leaves [debug]
    and [verbose] alone, writes nothing to the terminal and makes exactly
    one call on the system log, [syslog.New]; after it come the terminal
    queries, which stop at the first operand that decides: when TERM is
    "dumb" the terminal itself is never asked. *)
Theorem Open_success_effects (P : Platform) (w : @World P) (tag : string) :
  tag <> "" ->
  connect_error tag w = None ->
  let priority := Z.lor LOG_WARNING LOG_DAEMON in
  let answer := syslog_New P priority tag (env w) in
  let w' := snd (Open tag w) in
  fst (Open tag w) = Returned nil_error
  /\ s w' = fst (fst answer)
  /\ debug w' = debug w
  /\ verbose w' = verbose w
  /\ trace w' =
     (trace w ++ EvSyslogNew priority tag :: detection_queries (snd answer))%list
  /\ syslog_of (trace w') =
     (syslog_of (trace w) ++ [EvSyslogNew priority tag])%list
  /\ stdout_of (trace w') = stdout_of (trace w)
  /\ (os_Getenv P "TERM" (snd answer) = "dumb" ->
      detection_queries (snd answer) = [EvGetenv "TERM"]).
Proof.
  intros Ht Hc priority answer w'. subst w' answer priority.
  rewrite (Open_nonempty_tag P w tag Ht), Hc.
  cbn [fst snd after_detection after_connect s debug verbose trace env].
  repeat (split; [reflexivity|]).
  assert (Hq : forall e : Env P,
             stdout_of (detection_queries e) = []
             /\ syslog_of (detection_queries e) = []).
  { intros e. unfold detection_queries.
    destruct (String.eqb _ "dumb"); [split; reflexivity|].
    destruct (isatty_IsTerminal P _ e); split; reflexivity. }
  split; [rewrite <- app_assoc; reflexivity|].
  split; [rewrite <- app_assoc, !syslog_of_app, (proj2 (Hq _)); reflexivity|].
  split.
  - rewrite <- app_assoc, !stdout_of_app, (proj1 (Hq _)). cbn.
    apply app_nil_r.
  - intros Hd. unfold detection_queries. rewrite Hd. reflexivity.
Qed.

Lemma Open_success_effects_witness :
  s (snd (@Open dumb "svc" (start dumb 0%nat))) = Some 1%nat
  /\ trace (snd (@Open dumb "svc" (start dumb 0%nat)))
     = [EvSyslogNew 28 "svc"; EvGetenv "TERM"]
  /\ trace (snd (@Open piped "svc" (start piped 0%nat)))
     = [EvSyslogNew 28 "svc"; EvGetenv "TERM"; EvIsTerminal 1;
        EvIsCygwinTerminal 1].
Proof.
  assert (Ht : "svc" <> "") by discriminate.
  destruct (Open_success_effects dumb (start dumb 0%nat) "svc" Ht eq_refl)
    as [_ [Hs [_ [_ [Htr _]]]]].
  destruct (Open_success_effects piped (start piped 0%nat) "svc" Ht eq_refl)
    as [_ [_ [_ [_ [Htr' _]]]]].
  split; [exact Hs | split; [exact Htr | exact Htr']].
Defined.

Lemma exec_panics (P : Platform) (c : Call) (w : @World P) :
  panicked (exec c w)
  = match s w with Some _ => false | None => dereferences c w end.
Proof.
  destruct c; cbn [exec].
  - rewrite panicked_forget, Open_returns. destruct (s w); reflexivity.
  - rewrite panicked_forget, Close_panics. reflexivity.
  - rewrite PrintToScreen_style. destruct (s w); reflexivity.
  - destruct (s w); reflexivity.
  - destruct (s w); reflexivity.
  - destruct (s w); reflexivity.
  - rewrite panicked_forget. apply emit_panics.
Qed.

(** X6. [Open] assigns [s] before it looks at the error: when the
    connection fails, [s] is whatever [syslog.New] answered beside the
    error and the flags are untouched.  So if that answer is the nil
    handle, a handle that was open before is lost (it is not closed
    either), and every later call that reaches the handle panics.  The
    empty tag, in contrast, leaves [s] alone. *)
Theorem Open_failed_connect_overwrites_handle (P : Platform) (w : @World P)
    (tag : string) (e : error_value) :
  tag <> "" ->
  connect_error tag w = Some e ->
  let answer := syslog_New P (Z.lor LOG_WARNING LOG_DAEMON) tag (env w) in
  let w' := snd (Open tag w) in
  s w' = fst (fst answer)
  /\ (debug w', verbose w', color w') = (debug w, verbose w, color w)
  /\ syslog_of (trace w') =
     (syslog_of (trace w)
        ++ [EvSyslogNew (Z.lor LOG_WARNING LOG_DAEMON) tag])%list
  /\ (fst (fst answer) = None ->
      forall c, dereferences c w' = true -> panicked (exec c w') = true)
  /\ s (snd (Open "" w)) = s w.
Proof.
  intros Ht Hc answer w'. subst w' answer.
  rewrite (Open_nonempty_tag P w tag Ht), Hc.
  cbn [fst snd after_connect s debug verbose color trace].
  split; [reflexivity|]. split; [reflexivity|].
  split; [rewrite syslog_of_app; reflexivity|].
  split; [|reflexivity].
  intros Hnil c Hd. rewrite exec_panics.
  cbn [s after_connect]. rewrite Hnil. exact Hd.
Qed.

Lemma Open_failed_connect_overwrites_handle_witness :
  s (@mkWorld xterm_offline (Some 7%nat) false false true 0%nat []) = Some 7%nat
  /\ s (snd (@Open xterm_offline "svc"
               (@mkWorld xterm_offline (Some 7%nat) false false true 0%nat [])))
     = None
  /\ panicked (exec CallClose
                 (snd (@Open xterm_offline "svc"
                         (@mkWorld xterm_offline (Some 7%nat) false false true
                                   0%nat []))))
     = true.
Proof.
  assert (Ht : "svc" <> "") by discriminate.
  destruct (Open_failed_connect_overwrites_handle xterm_offline
              (@mkWorld xterm_offline (Some 7%nat) false false true 0%nat [])
              "svc" (foreign_error "dial unixgram: no such file") Ht eq_refl)
    as [Hs [_ [_ [Hp _]]]].
  split; [reflexivity|]. split; [exact Hs|].
  exact (Hp eq_refl CallClose eq_refl).
Defined.

(** ** Emergency without a handle *)

(** X7. [Emergency] prints before it touches the handle: with [s] nil the
    terminal line is still written, nothing reaches the system log, and
    the call then panics on the nil dereference. *)
Theorem Emergency_nil_handle_prints_then_panics (P : Platform)
    (w : @World P) (message : string) :
  s w = None ->
  let r := Emergency message w in
  fst r = Panicked NilDereference
  /\ trace (snd r) =
     (trace w ++ [EvNow;
                  EvStdout (terminal_line (color w) (timestamp w)
                                          SevEmergency message)])%list
  /\ syslog_of (trace (snd r)) = syslog_of (trace w).
Proof.
  intros Hs r. subst r. rewrite (Emergency_nil P w message Hs).
  unfold print_world. cbn [fst snd]. rewrite trace_after_print.
  split; [reflexivity|]. split; [reflexivity|].
  rewrite syslog_of_app. cbn. apply app_nil_r.
Qed.

Lemma Emergency_nil_handle_prints_then_panics_witness :
  fst (@Emergency xterm "x" (start xterm 0%nat)) = Panicked NilDereference
  /\ stdout_of (trace (snd (@Emergency xterm "x" (start xterm 0%nat))))
     = ["2024-01-01T00:00:00Z - " ++ C_RED ++ "EMERGENCY" ++ C_RESET
        ++ " x" ++ LF].
Proof.
  destruct (Emergency_nil_handle_prints_then_panics xterm (start xterm 0%nat)
              "x" eq_refl) as [Hr [Ht _]].
  split; [exact Hr|]. rewrite Ht. reflexivity.
Defined.

(** ** How much one call can emit *)

Lemma detection_queries_silent (P : Platform) (e : Env P) :
  stdout_of (detection_queries e) = []
  /\ syslog_of (detection_queries e) = [].
Proof.
  unfold detection_queries.
  destruct (String.eqb _ "dumb"); [split; reflexivity|].
  destruct (isatty_IsTerminal P _ e); split; reflexivity.
Qed.

Ltac emitted new :=
  exists new; cbn [fst snd forget];
  split; [ cbn; rewrite <- ?app_assoc; reflexivity | cbn; lia ].

(** X8. Every call of an exported function only appends to the trace,
    and what it appends holds at most one terminal line and at most one
    call on the system log; only [Emergency] can do both, every other
    call does one or the other or neither. *)
Theorem call_output_bounded (P : Platform) (c : Call) (w : @World P) :
  exists new,
    trace (snd (exec c w)) = (trace w ++ new)%list
    /\ (length (stdout_of new) <= 1
        /\ length (syslog_of new) <= 1
        /\ length (stdout_of new) + length (syslog_of new)
           <= (if fans_out c then 2 else 1))%nat.
Proof.
  destruct c; cbn [exec fans_out].
  - destruct (String.eqb tag "") eqn:Et.
    + apply String.eqb_eq in Et. subst tag. unfold forget.
      rewrite Open_empty_tag. exists []. cbn. rewrite app_nil_r.
      split; [reflexivity|lia].
    + apply String.eqb_neq in Et. unfold forget.
      rewrite (Open_nonempty_tag P w tag Et).
      destruct (connect_error tag w).
      * emitted [@EvSyslogNew P (Z.lor LOG_WARNING LOG_DAEMON) tag].
      * exists (EvSyslogNew (Z.lor LOG_WARNING LOG_DAEMON) tag
                  :: detection_queries (env (after_connect tag w))).
        cbn [fst snd after_detection trace after_connect].
        split; [rewrite <- app_assoc; reflexivity|].
        destruct (detection_queries_silent P (env (after_connect tag w)))
          as [Ho Hs].
        cbn [stdout_of env after_connect] in *.
        change (syslog_of (?a :: ?l)) with (a :: syslog_of l).
        rewrite Ho, Hs. cbn. lia.
  - unfold forget. destruct (s w) as [h|] eqn:Hs.
    + rewrite (Close_run P w h Hs). emitted [@EvSyslogClose P h].
    + rewrite (Close_nil P w Hs). exists []. cbn. rewrite app_nil_r.
      split; [reflexivity|lia].
  - rewrite PrintToScreen_style. eexists [EvNow; EvStdout _].
    cbn. rewrite <- app_assoc. split; [reflexivity|lia].
  - exists []. cbn. rewrite app_nil_r. split; [reflexivity|lia].
  - exists []. cbn. rewrite app_nil_r. split; [reflexivity|lia].
  - exists []. cbn. rewrite app_nil_r. split; [reflexivity|lia].
  - unfold forget. destruct sev;
      try (rewrite emit_unfold by discriminate;
           destruct (gate_open _ w);
           [ destruct (debug w);
             [ eexists [EvNow; EvStdout _]; cbn; rewrite <- app_assoc;
               split; [reflexivity|lia]
             | destruct (s w) as [h|];
               [ eexists [EvSyslogLog _ h message]; cbn;
                 split; [reflexivity|lia]
               | exists []; cbn; rewrite app_nil_r;
                 split; [reflexivity|lia] ] ]
           | exists []; cbn; rewrite app_nil_r; split; [reflexivity|lia] ]).
    cbn [emit]. destruct (s w) as [h|] eqn:Hs.
    + rewrite (Emergency_run P w h message Hs).
      eexists [EvNow; EvStdout _; EvSyslogLog mEmerg h message].
      cbn. rewrite <- !app_assoc. split; [reflexivity|lia].
    + rewrite (Emergency_nil P w message Hs).
      eexists [EvNow; EvStdout _]. cbn. rewrite <- !app_assoc.
      split; [reflexivity|lia].
Qed.

(** ** Reading a line *)



(** ** The example program of the README *)

Lemma bind_returned (P : Platform) {A B} (m : @M P A) (k : A -> @M P B)
    (w w' : @World P) (a : A) :
  m w = (Returned a, w') -> bind m k w = k a w'.
Proof. intros H. unfold bind. rewrite H. reflexivity. Qed.

Lemma emit_print_step (P : Platform) (w : @World P) sev message :
  sev <> SevEmergency ->
  debug w = true ->
  verbose w = true ->
  emit sev message w = (Returned nil_error, print_world sev message w).
Proof.
  intros Hne Hd Hv. rewrite (emit_unfold P w sev message Hne), Hd.
  replace (gate_open sev w) with true; [reflexivity|].
  destruct sev; cbn; congruence.
Qed.

Lemma Emergency_step (P : Platform) (w : @World P) h message :
  s w = Some h ->
  Emergency message w =
  (Returned (fst (Writer_log P mEmerg h message (env_after_clock w))),
   forward_world mEmerg h message (print_world SevEmergency message w)).
Proof. apply Emergency_run. Qed.

Lemma Close_step (P : Platform) (w : @World P) h :
  s w = Some h ->
  Close w = (Returned (fst (Writer_Close P h (env w))), close_world h w).
Proof. apply Close_run. Qed.

(** The whole run of [main] when the connection is made. *)
Lemma main_run (P : Platform) (w : @World P) (h : Writer P) (e1 : Env P) :
  syslog_New P (Z.lor LOG_WARNING LOG_DAEMON) "Test" (env w)
  = ((Some h, None), e1) ->
  let m := "Test Message - Disregard." in
  main w =
  (Returned 0%Z,
   close_world h
     (print_world SevDebug m
     (print_world SevInfo m
     (print_world SevNotice m
     (print_world SevWarning m
     (print_world SevError m
     (print_world SevCritical m
     (print_world SevAlert m
     (forward_world mEmerg h m
     (print_world SevEmergency m
     (set_verbose true
     (set_debug true
     (after_detection (after_connect "Test" w)))))))))))))).
Proof.
  intros H m. subst m.
  assert (Ht : "Test" <> "") by discriminate.
  assert (Hc : connect_error "Test" w = None)
    by (unfold connect_error; rewrite H; reflexivity).
  assert (Hs : s (after_connect "Test" w) = Some h)
    by (unfold after_connect; rewrite H; reflexivity).
  unfold main.
  change (@Alert P) with (@emit P SevAlert).
  change (@Critical P) with (@emit P SevCritical).
  change (@Error P) with (@emit P SevError).
  change (@Warning P) with (@emit P SevWarning).
  change (@Notice P) with (@emit P SevNotice).
  change (@Info P) with (@emit P SevInfo).
  change (@Debug P) with (@emit P SevDebug).
  erewrite bind_returned
    by (rewrite (Open_nonempty_tag P w "Test" Ht), Hc; reflexivity).
  unfold nil_error. cbv beta iota.
  erewrite bind_returned by reflexivity.
  erewrite bind_returned by reflexivity.
  erewrite bind_returned by (apply Emergency_step; exact Hs).
  erewrite bind_returned
    by (apply (emit_print_step P _ SevAlert);
        [discriminate | reflexivity | reflexivity]).
  erewrite bind_returned
    by (apply (emit_print_step P _ SevCritical);
        [discriminate | reflexivity | reflexivity]).
  erewrite bind_returned
    by (apply (emit_print_step P _ SevError);
        [discriminate | reflexivity | reflexivity]).
  erewrite bind_returned
    by (apply (emit_print_step P _ SevWarning);
        [discriminate | reflexivity | reflexivity]).
  erewrite bind_returned
    by (apply (emit_print_step P _ SevNotice);
        [discriminate | reflexivity | reflexivity]).
  erewrite bind_returned
    by (apply (emit_print_step P _ SevInfo);
        [discriminate | reflexivity | reflexivity]).
  erewrite bind_returned
    by (apply (emit_print_step P _ SevDebug);
        [discriminate | reflexivity | reflexivity]).
  erewrite bind_returned by (apply Close_step; exact Hs).
  reflexivity.
Qed.

(** How each step of a run shows on the two sinks and on [color]. *)
Lemma stdout_print_world (P : Platform) (w : @World P) sev message :
  stdout_of (trace (print_world sev message w))
  = (stdout_of (trace w)
       ++ [terminal_line (color w) (timestamp w) sev message])%list.
Proof.
  unfold print_world. rewrite trace_after_print, stdout_of_app. reflexivity.
Qed.

Lemma syslog_print_world (P : Platform) (w : @World P) sev message :
  syslog_of (trace (print_world sev message w)) = syslog_of (trace w).
Proof.
  unfold print_world. rewrite trace_after_print, syslog_of_app. cbn.
  apply app_nil_r.
Qed.

Lemma stdout_forward_world (P : Platform) (w : @World P) m h message :
  stdout_of (trace (forward_world m h message w)) = stdout_of (trace w).
Proof.
  unfold forward_world. cbn [trace record]. rewrite stdout_of_app. cbn.
  apply app_nil_r.
Qed.

Lemma syslog_forward_world (P : Platform) (w : @World P) m h message :
  syslog_of (trace (forward_world m h message w))
  = (syslog_of (trace w) ++ [EvSyslogLog m h message])%list.
Proof.
  unfold forward_world. cbn [trace record]. rewrite syslog_of_app.
  reflexivity.
Qed.

Lemma stdout_close_world (P : Platform) (w : @World P) h :
  stdout_of (trace (close_world h w)) = stdout_of (trace w).
Proof.
  unfold close_world. cbn [trace record]. rewrite stdout_of_app. cbn.
  apply app_nil_r.
Qed.

Lemma syslog_close_world (P : Platform) (w : @World P) h :
  syslog_of (trace (close_world h w))
  = (syslog_of (trace w) ++ [EvSyslogClose h])%list.
Proof.
  unfold close_world. cbn [trace record]. rewrite syslog_of_app.
  reflexivity.
Qed.

Lemma stdout_after_detection (P : Platform) (w : @World P) :
  stdout_of (trace (after_detection w)) = stdout_of (trace w).
Proof.
  unfold after_detection. cbn [trace].
  rewrite stdout_of_app, (proj1 (detection_queries_silent P (env w))).
  apply app_nil_r.
Qed.

Lemma syslog_after_detection (P : Platform) (w : @World P) :
  syslog_of (trace (after_detection w)) = syslog_of (trace w).
Proof.
  unfold after_detection. cbn [trace].
  rewrite syslog_of_app, (proj2 (detection_queries_silent P (env w))).
  apply app_nil_r.
Qed.

Lemma stdout_after_connect (P : Platform) (w : @World P) tag :
  stdout_of (trace (after_connect tag w)) = stdout_of (trace w).
Proof.
  unfold after_connect. cbn [trace]. rewrite stdout_of_app. cbn.
  apply app_nil_r.
Qed.

Lemma syslog_after_connect (P : Platform) (w : @World P) tag :
  syslog_of (trace (after_connect tag w))
  = (syslog_of (trace w)
       ++ [EvSyslogNew (Z.lor LOG_WARNING LOG_DAEMON) tag])%list.
Proof.
  unfold after_connect. cbn [trace]. rewrite syslog_of_app. reflexivity.
Qed.

Lemma trace_setters (P : Platform) (w : @World P) b :
  trace (set_debug b w) = trace w /\ trace (set_verbose b w) = trace w.
Proof. split; reflexivity. Qed.

Lemma color_print_world (P : Platform) (w : @World P) sev message :
  color (print_world sev message w) = color w.
Proof. reflexivity. Qed.

Lemma color_forward_world (P : Platform) (w : @World P) m h message :
  color (forward_world m h message w) = color w.
Proof. reflexivity. Qed.

Lemma color_set_debug (P : Platform) (w : @World P) b :
  color (set_debug b w) = color w.
Proof. reflexivity. Qed.

Lemma color_set_verbose (P : Platform) (w : @World P) b :
  color (set_verbose b w) = color w.
Proof. reflexivity. Qed.

Lemma color_after_connect (P : Platform) (w : @World P) tag :
  color (after_connect tag w) = color w.
Proof. reflexivity. Qed.

Lemma color_after_detection (P : Platform) (w : @World P) :
  color (after_detection w)
  = (if no_color_terminal (env w) then false else color w).
Proof. reflexivity. Qed.

(** X10. The example program of the README, when the connection is
    made: it ends with status 0 and never panics; it writes exactly
    eight terminal lines, one per severity from Emergency down to Debug,
    all with the colour setting the auto-detection left; and it makes
    exactly three calls on the system log: [syslog.New] with tag "Test",
    the Emerg method (the only message that reaches the system log in
    debug mode) and Close, on the handle [syslog.New] answered. *)
Theorem main_example_run (P : Platform) (w : @World P) (h : Writer P)
    (e1 : Env P) :
  syslog_New P (Z.lor LOG_WARNING LOG_DAEMON) "Test" (env w)
  = ((Some h, None), e1) ->
  let m := "Test Message - Disregard." in
  let c := if no_color_terminal e1 then false else color w in
  fst (main w) = Returned 0%Z
  /\ (exists t0 t1 t2 t3 t4 t5 t6 t7,
         stdout_of (trace (snd (main w))) =
         (stdout_of (trace w)
            ++ [terminal_line c t0 SevEmergency m;
                terminal_line c t1 SevAlert m;
                terminal_line c t2 SevCritical m;
                terminal_line c t3 SevError m;
                terminal_line c t4 SevWarning m;
                terminal_line c t5 SevNotice m;
                terminal_line c t6 SevInfo m;
                terminal_line c t7 SevDebug m])%list)
  /\ syslog_of (trace (snd (main w))) =
     (syslog_of (trace w)
        ++ [EvSyslogNew (Z.lor LOG_WARNING LOG_DAEMON) "Test";
            EvSyslogLog mEmerg h m;
            EvSyslogClose h])%list.
Proof.
  intros H m c. subst m c. rewrite (main_run P w h e1 H). cbn [fst snd].
  assert (He : env (after_connect "Test" w) = e1)
    by (unfold after_connect; rewrite H; reflexivity).
  split; [reflexivity|]. split.
  - do 8 eexists.
    rewrite stdout_close_world, !stdout_print_world, stdout_forward_world,
      stdout_print_world.
    rewrite (proj2 (trace_setters P _ true)), (proj1 (trace_setters P _ true)).
    rewrite stdout_after_detection, stdout_after_connect.
    rewrite !color_print_world, color_forward_world, color_print_world,
      color_set_verbose, color_set_debug, color_after_detection,
      color_after_connect, He.
    rewrite <- !app_assoc. cbn [app]. reflexivity.
  - rewrite syslog_close_world, !syslog_print_world, syslog_forward_world,
      syslog_print_world.
    rewrite (proj2 (trace_setters P _ true)), (proj1 (trace_setters P _ true)).
    rewrite syslog_after_detection, syslog_after_connect.
    rewrite <- !app_assoc. reflexivity.
Qed.

Lemma main_example_run_witness :
  fst (@main xterm (start xterm 0%nat)) = Returned 0%Z
  /\ syslog_of (trace (snd (@main xterm (start xterm 0%nat))))
     = [EvSyslogNew 28 "Test";
        @EvSyslogLog xterm mEmerg 1%nat "Test Message - Disregard.";
        @EvSyslogClose xterm 1%nat].
Proof.
  destruct (main_example_run xterm (start xterm 0%nat) 1%nat 1%nat eq_refl)
    as [Hr [_ Hs]].
  split; [exact Hr | exact Hs].
Defined.

(** X11. The example program of the README, when the connection fails
    with error [e]: it writes the single line "Fatal error logger: "
    followed by the text of [e], ends with status -1, and apart from the
    one [syslog.New] call nothing reaches the system log: no severity is
    emitted and [Close] is not called. *)
Theorem main_example_connect_failure (P : Platform) (w : @World P)
    (x : option (Writer P)) (e : error_value) (e1 : Env P) :
  syslog_New P (Z.lor LOG_WARNING LOG_DAEMON) "Test" (env w)
  = ((x, Some e), e1) ->
  fst (main w) = Returned (-1)%Z
  /\ trace (snd (main w)) =
     (trace w ++ [EvSyslogNew (Z.lor LOG_WARNING LOG_DAEMON) "Test";
                  EvStdout ("Fatal error logger: " ++ error_Error e ++ LF)])%list.
Proof.
  intros H.
  assert (Ht : "Test" <> "") by discriminate.
  assert (Hc : connect_error "Test" w = Some e)
    by (unfold connect_error; rewrite H; reflexivity).
  unfold main.
  erewrite bind_returned
    by (rewrite (Open_nonempty_tag P w "Test" Ht), Hc; reflexivity).
  cbv beta iota.
  unfold bind, fmt_Printf, modify, ret. cbn [fst snd trace record after_connect].
  split; [reflexivity|]. rewrite <- app_assoc. reflexivity.
Qed.

Lemma main_example_connect_failure_witness :
  fst (@main xterm_offline (start xterm_offline 0%nat)) = Returned (-1)%Z
  /\ stdout_of (trace (snd (@main xterm_offline (start xterm_offline 0%nat))))
     = ["Fatal error logger: dial unixgram: no such file" ++ LF].
Proof.
  destruct (main_example_connect_failure xterm_offline
              (start xterm_offline 0%nat) None
              (foreign_error "dial unixgram: no such file") 1%nat eq_refl)
    as [Hr Ht].
  split; [exact Hr|]. rewrite Ht. reflexivity.
Defined.
